(** * datasets/coco.py: the COCO dataset adapter

    A shallow embedding of [src/datasets/coco.py] and the properties its
    specification states about it.

    Conventions of the embedding.
    - A Python exception is a value of [Exception]; a call that may raise
      returns [Result A].  Statements are sequenced with the bind of
      [Result], in the order the source evaluates them.
    - A tensor is the list of its rows.  An [(N, 4)] float tensor is a
      [list Box]; a 1-D tensor is a [list] of its elements.
    - The embedding has two layers.  The first takes pixel coordinates,
      areas and keypoints as exact rationals ([Q]) and identifiers as
      unbounded integers ([Z]); it carries the properties of the shape of
      the result: which records survive, in which order, under which keys,
      and which exception a malformed input raises.  The second, the
      module [Torch], follows the same lines of the source with the number
      formats of the tensors ([float32], [float64], [int64]: rounding,
      infinities, NaN, overflow); it carries the properties of the values.
    - The libraries the file calls (PIL, pycocotools, albumentations,
      torchvision's dataset class, pathlib) are the fields of the class
      [Collaborators]; every definition and theorem is stated for an
      arbitrary instance of it. *)

From Stdlib Require Import QArith Qminmax Qround Qpower Qabs Lqa Lia.
From stdpp Require Import base list strings gmap.

Set Warnings "-register-all".
Open Scope Q_scope.

(** ** Exceptions and results *)

Inductive Exception : Type :=
| KeyError (key : string)
| ValueError (msg : string)
| IndexError (msg : string)
| RuntimeError (msg : string)
| AssertionError (msg : string).

Inductive Result (A : Type) : Type :=
| Ok (a : A)
| Raise (e : Exception).

Arguments Ok {A} a.
Arguments Raise {A} e.

#[global] Instance Result_ret : MRet Result := fun A a => Ok a.

#[global] Instance Result_bind : MBind Result := fun A B f m =>
  match m with
  | Ok a => f a
  | Raise e => Raise e
  end.

#[global] Instance Result_fmap : FMap Result := fun A B f m =>
  match m with
  | Ok a => Ok (f a)
  | Raise e => Raise e
  end.

(** Proof step for a sequence of statements [H : (x ← m; k) = Ok b] that
    returned: the first statement returned some [x] (recorded as [Hx]) and
    [H] becomes the rest of the sequence, or [b = v] when the rest is the
    plain result [Ok v]. *)
Ltac step H x Hx :=
  lazymatch type of H with
  | (_ <$> ?m) = Ok _ =>
      destruct m as [x|] eqn:Hx; [|discriminate H]; cbn [fmap Result_fmap] in H
  | (?m ≫= _) = Ok _ =>
      destruct m as [x|] eqn:Hx; [|discriminate H]; cbn [mbind Result_bind] in H
  end;
  try lazymatch type of H with
      | Ok ?v = Ok ?b =>
          let H' := fresh in
          assert (H' : b = v) by congruence; clear H; rename H' into H
      end.

(** [d[key]] on a dictionary whose entry [key] may be absent. *)
Definition getitem_key {A} (key : string) (field : option A) : Result A :=
  match field with
  | Some v => Ok v
  | None => Raise (KeyError key)
  end.

(** ** Tensors *)

(** A row of an [(N, 4)] tensor; the fields are its columns 0 to 3. *)
Record Box : Type := mkBox { col0 : Q; col1 : Q; col2 : Q; col3 : Q }.

(** A nested Python list converts to a tensor only when its rows have one
    length. *)
Definition rectangular {A} (rows : list (list A)) : bool :=
  match rows with
  | [] => true
  | r :: rs => forallb (fun r' => Nat.eqb (length r') (length r)) rs
  end.

Definition as_tensor {A} (rows : list (list A)) : Result (list (list A)) :=
  if rectangular rows then Ok rows
  else Raise (ValueError "expected sequence of equal length").

(** [t.reshape(-1, 4)] on the elements of [t] in row-major order. *)
Fixpoint reshape_rows4 (flat : list Q) : Result (list Box) :=
  match flat with
  | [] => Ok []
  | a :: b :: c :: d :: rest =>
      match reshape_rows4 rest with
      | Ok bs => Ok (mkBox a b c d :: bs)
      | Raise e => Raise e
      end
  | _ => Raise (RuntimeError "shape [-1, 4] is invalid for input size")
  end.

Definition reshape_m1_4 (t : list (list Q)) : Result (list Box) :=
  reshape_rows4 (concat t).

(** [t.view(n, -1, 3)] on an [(n, L)] tensor: every row is cut in triples. *)
Fixpoint view_row3 (row : list Q) : Result (list (Q * Q * Q)) :=
  match row with
  | [] => Ok []
  | a :: b :: c :: rest =>
      match view_row3 rest with
      | Ok ts => Ok ((a, b, c) :: ts)
      | Raise e => Raise e
      end
  | _ => Raise (RuntimeError "shape [n, -1, 3] is invalid for input size")
  end.

Definition view_n_m1_3 (t : list (list Q)) : Result (list (list (Q * Q * Q))) :=
  mapM view_row3 t.

(** [x.clamp(min, max)] of one element. *)
Definition clamp (min max x : Q) : Q := Qmin (Qmax x min) max.

(** [a > b] on tensor elements. *)
Definition Qgtb (a b : Q) : bool := negb (Qle_bool a b).

(** [boxes[:, 2:] += boxes[:, :2]] *)
Definition add_corner (b : Box) : Box :=
  mkBox (col0 b) (col1 b) (col2 b + col0 b) (col3 b + col1 b).

(** [boxes[:, 0::2].clamp_(min=0, max=w)] *)
Definition clamp_x (w : N) (b : Box) : Box :=
  mkBox (clamp 0 (inject_Z (Z.of_N w)) (col0 b)) (col1 b)
        (clamp 0 (inject_Z (Z.of_N w)) (col2 b)) (col3 b).

(** [boxes[:, 1::2].clamp_(min=0, max=h)] *)
Definition clamp_y (h : N) (b : Box) : Box :=
  mkBox (col0 b) (clamp 0 (inject_Z (Z.of_N h)) (col1 b))
        (col2 b) (clamp 0 (inject_Z (Z.of_N h)) (col3 b)).

(** One row of [(boxes[:, 3] > boxes[:, 1]) & (boxes[:, 2] > boxes[:, 0])]. *)
Definition keep_row (b : Box) : bool :=
  Qgtb (col3 b) (col1 b) && Qgtb (col2 b) (col0 b).

(** The rows of [xs] at which [keep] is true, in order. *)
Fixpoint select {A} (keep : list bool) (xs : list A) : list A :=
  match keep, xs with
  | k :: keep', x :: xs' => if k then x :: select keep' xs' else select keep' xs'
  | _, _ => []
  end.

(** [xs[keep]] for a boolean tensor [keep]: the first dimensions must agree. *)
Definition index_mask {A} (keep : list bool) (xs : list A) : Result (list A) :=
  if Nat.eqb (length keep) (length xs) then Ok (select keep xs)
  else Raise (IndexError "the shape of the mask does not match the indexed tensor").

(** ** The augmentation pipeline as data (albumentations constructors) *)

Record BboxParams : Type := mkBboxParams { format : string }.

Inductive Transform : Type :=
| Resize (height width : Z)
| Normalize (mean std : list Q)
| ToTensorV2
| VerticalFlip (p : Q)
| HorizontalFlip (p : Q)
| Sharpen (alpha : Q * Q) (p : Q)
| RandomBrightnessContrast (brightness_limit contrast_limit p : Q)
| ColorJitter (p : Q) (saturation hue contrast brightness : Q * Q)
| RandomGamma (gamma_limit : Z * Z) (p : Q)
| GaussNoise (var_limit : Z * Z) (mean : Z) (p : Q)
| CLAHE (p : Q)
| Compose (transforms : list Transform) (bbox_params : option BboxParams).

(** ** The libraries the file calls *)

Class Collaborators : Type := {
  (** PIL: an image and its [size], the pair (width, height). *)
  Image : Type;
  image_size : Image -> N * N;
  (** pycocotools: a [segmentation] entry (polygons or RLE), and lines 57 to
      62 of [convert_coco_poly_to_mask] for one object: [frPyObjects],
      [decode], the added channel axis and [any(dim=2)], giving one
      [height] by [width] mask. *)
  Segmentation : Type;
  Mask : Type;
  decode_mask : Segmentation -> N -> N -> Result Mask;
  (** albumentations: calling a composed pipeline on [image=np.array(img)]
      and [bboxes=rows]; the result's ["image"] and ["bboxes"] entries.  The
      library's random source is part of the function. *)
  ImageTensor : Type;
  tensor_float : ImageTensor -> ImageTensor;
  call_transforms :
    Transform -> Image -> list (list Q) -> Result (ImageTensor * list (list Q));
  (** pathlib: [Path(s)], [p / name], [p.exists()] and [str(p)]. *)
  Path : Type;
  Path_of : string -> Path;
  joinpath : Path -> string -> Path;
  path_exists : Path -> bool;
  path_str : Path -> string;
}.

Section Coco.

Context {C : Collaborators}.

(** ** Annotation records and target records *)

(** One COCO annotation, a dictionary: an absent key is [None]. *)
Record Annotation : Type := mkAnnotation {
  obj_bbox : option (list Q);
  obj_category_id : option Z;
  obj_segmentation : option Segmentation;
  obj_iscrowd : option Z;
  obj_area : option Q;
  obj_keypoints : option (list Q);
}.

(** [{'image_id': image_id, 'annotations': target}] *)
Record RawTarget : Type := mkRawTarget {
  raw_image_id : Z;
  annotations : list Annotation;
}.

(** The dictionary [ConvertCocoPolysToMask] returns; the keys ["masks"] and
    ["keypoints"] are present when the field is [Some _]. *)
Record Target : Type := mkTarget {
  boxes : list Box;
  labels : list Z;
  masks : option (list Mask);
  image_id : list Z;
  keypoints : option (list (list (Q * Q * Q)));
  area : list Q;
  iscrowd : list Z;
  orig_size : list Z;
  size_ : list Z;
}.

(** ** convert_coco_poly_to_mask *)

(** [torch.stack(masks, dim=0)] of masks of one shape. *)
Definition stack (ms : list Mask) : list Mask := ms.

(** [torch.zeros((0, height, width))]: a stack of no mask. *)
Definition zeros_0 (height width : N) : list Mask := [].

Definition convert_coco_poly_to_mask
    (segmentations : list Segmentation) (height width : N) : Result (list Mask) :=
  masks ← mapM (fun polygons => decode_mask polygons height width) segmentations;
  match masks with
  | _ :: _ => Ok (stack masks)
  | [] => Ok (zeros_0 height width)
  end.

(** ** ConvertCocoPolysToMask *)

(** The object [ConvertCocoPolysToMask(return_masks)]. *)
Record ConvertCocoPolysToMask : Type := mkConvertCocoPolysToMask {
  return_masks : bool;
}.

(** The condition of the comprehension at line 83:
    ['iscrowd' not in obj or obj['iscrowd'] == 0]. *)
Definition not_crowd (obj : Annotation) : bool :=
  match obj_iscrowd obj with
  | None => true
  | Some c => Z.eqb c 0
  end.

(** Lines 99 to 105. *)
Definition stack_keypoints (anno : list Annotation)
  : Result (option (list (list (Q * Q * Q)))) :=
  match anno with
  | obj0 :: _ =>
      match obj_keypoints obj0 with
      | Some _ =>
          keypoints ← mapM (fun obj => getitem_key "keypoints" (obj_keypoints obj)) anno;
          keypoints ← as_tensor keypoints;
          let num_keypoints := length keypoints in
          if negb (Nat.eqb num_keypoints 0)
          then Some <$> view_n_m1_3 keypoints
          else Ok (Some [])
      | None => Ok None
      end
  | [] => Ok None
  end.

(** [t[keep]] for a tensor that exists only under a condition. *)
Definition index_mask_opt {A} (keep : list bool) (t : option (list A))
  : Result (option (list A)) :=
  match t with
  | Some xs => Some <$> index_mask keep xs
  | None => Ok None
  end.

(** [ConvertCocoPolysToMask.__call__] *)
Definition ConvertCocoPolysToMask_call
    (self : ConvertCocoPolysToMask) (image : Image) (target : RawTarget)
  : Result (Image * Target) :=
  let '(w, h) := image_size image in
  let image_id := [raw_image_id target] in
  let anno := annotations target in
  let anno := List.filter not_crowd anno in
  boxes ← mapM (fun obj => getitem_key "bbox" (obj_bbox obj)) anno;
  boxes ← as_tensor boxes;
  boxes ← reshape_m1_4 boxes;
  let boxes := map add_corner boxes in
  let boxes := map (clamp_x w) boxes in
  let boxes := map (clamp_y h) boxes in
  classes ← mapM (fun obj => getitem_key "category_id" (obj_category_id obj)) anno;
  masks ← (if return_masks self
           then
             segmentations ←
               mapM (fun obj => getitem_key "segmentation" (obj_segmentation obj)) anno;
             Some <$> convert_coco_poly_to_mask segmentations h w
           else Ok None);
  keypoints ← stack_keypoints anno;
  let keep := map keep_row boxes in
  boxes ← index_mask keep boxes;
  classes ← index_mask keep classes;
  masks ← index_mask_opt keep masks;
  keypoints ← index_mask_opt keep keypoints;
  area ← mapM (fun obj => getitem_key "area" (obj_area obj)) anno;
  let iscrowd := map (fun obj => default 0%Z (obj_iscrowd obj)) anno in
  area ← index_mask keep area;
  iscrowd ← index_mask keep iscrowd;
  Ok (image,
      {| boxes := boxes;
         labels := classes;
         masks := masks;
         image_id := image_id;
         keypoints := keypoints;
         area := area;
         iscrowd := iscrowd;
         orig_size := [Z.of_N h; Z.of_N w];
         size_ := [Z.of_N h; Z.of_N w] |}).

(** ** CocoDetection *)

(** Modelled from the spec: [util.box_ops.box_xyxy_to_cxcywh], which is not
    among the source files.  The spec's center-size format is
    (cx, cy, w, h), the center point and the extent of the corner box
    (x1, y1, x2, y2). *)
Definition box_xyxy_to_cxcywh (b : Box) : Box :=
  mkBox ((col0 b + col2 b) / 2) ((col1 b + col3 b) / 2)
        (col2 b - col0 b) (col3 b - col1 b).

(** The rows of a tensor whose last dimension is unpacked into four
    coordinates. *)
Definition unbind4 (t : list (list Q)) : Result (list Box) :=
  mapM (fun row =>
          match row with
          | [a; b; c; d] => Ok (mkBox a b c d)
          | _ => Raise (ValueError "expected 4 values to unpack")
          end) t.

(** [t / 640.0] on a box tensor. *)
Definition div_640 (b : Box) : Box :=
  mkBox (col0 b / 640) (col1 b / 640) (col2 b / 640) (col3 b / 640).

(** [l[i]] on a Python list, negative indices counting from the end. *)
Definition list_getitem {A} (l : list A) (i : Z) : Result A :=
  let n := Z.of_nat (length l) in
  let j := if Z.ltb i 0 then (i + n)%Z else i in
  if Z.ltb j 0 then Raise (IndexError "list index out of range")
  else match nth_error l (Z.to_nat j) with
       | Some x => Ok x
       | None => Raise (IndexError "list index out of range")
       end.

(** [np.hstack((tmp_boxes, tmp_labels[:, np.newaxis]))] *)
Fixpoint hstack (tmp_boxes : list Box) (tmp_labels : list Z) : Result (list (list Q)) :=
  match tmp_boxes, tmp_labels with
  | [], [] => Ok []
  | b :: bs, l :: ls =>
      match hstack bs ls with
      | Ok rows => Ok ([col0 b; col1 b; col2 b; col3 b; inject_Z l] :: rows)
      | Raise e => Raise e
      end
  | _, _ => Raise (ValueError "all the input array dimensions must match")
  end.

(** [torch.tensor(rows)] followed by an index on two dimensions: the empty
    list converts to a 1-D tensor, which has no second dimension. *)
Definition tensor_2d (rows : list (list Q)) : Result (list (list Q)) :=
  t ← as_tensor rows;
  match t with
  | [] => Raise (IndexError "too many indices for tensor of dimension 1")
  | _ :: _ => Ok t
  end.

(** The conversion of a float to [int64]: truncation toward zero. *)
Definition to_int64 (x : Q) : Z :=
  if Qle_bool 0 x then Qfloor x else Qceiling x.

(** [torch.tensor(rows, dtype=torch.float32)[:, :4]] *)
Definition columns_0_4 (rows : list (list Q)) : Result (list (list Q)) :=
  t ← tensor_2d rows;
  Ok (map (take 4) t).

(** [torch.tensor(rows, dtype=torch.int64)[:, 4]] *)
Definition column_4 (rows : list (list Q)) : Result (list Z) :=
  t ← tensor_2d rows;
  mapM (fun row =>
          match nth_error row 4 with
          | Some x => Ok (to_int64 x)
          | None => Raise (IndexError "index 4 is out of bounds for dimension 1")
          end) t.

(** The dataset object: the part of the torchvision parent it uses ([ids]
    and the parent's [__getitem__]), and the two fields [__init__] sets. *)
Record CocoDetection : Type := mkCocoDetection {
  ids : list Z;
  super_getitem : Z -> Result (Image * list Annotation);
  _transforms : option Transform;
  prepare : ConvertCocoPolysToMask;
}.

(** [target["boxes"] = new_boxes; target["labels"] = new_labels] *)
Definition assign_boxes_labels
    (target : Target) (new_boxes : list Box) (new_labels : list Z) : Target :=
  {| boxes := new_boxes;
     labels := new_labels;
     masks := masks target;
     image_id := image_id target;
     keypoints := keypoints target;
     area := area target;
     iscrowd := iscrowd target;
     orig_size := orig_size target;
     size_ := size_ target |}.

(** [CocoDetection.__getitem__]: the image is the PIL image ([inl]) or the
    transformed tensor ([inr]). *)
Definition CocoDetection_getitem (self : CocoDetection) (idx : Z)
  : Result ((Image + ImageTensor) * Target) :=
  '(img, target) ← super_getitem self idx;
  image_id ← list_getitem (ids self) idx;
  let target := {| raw_image_id := image_id; annotations := target |} in
  '(img, target) ← ConvertCocoPolysToMask_call (prepare self) img target;
  match _transforms self with
  | Some transforms =>
      let tmp_boxes := boxes target in
      let tmp_labels := labels target in
      bboxes ← hstack tmp_boxes tmp_labels;
      _res ← call_transforms transforms img bboxes;
      let img := tensor_float (fst _res) in
      new_boxes ← columns_0_4 (snd _res);
      new_labels ← column_4 (snd _res);
      new_boxes ← unbind4 new_boxes;
      let new_boxes := map div_640 (map box_xyxy_to_cxcywh new_boxes) in
      Ok (inr img, assign_boxes_labels target new_boxes new_labels)
  | None => Ok (inl img, target)
  end.

(** ** make_coco_transforms *)

Definition trans_val : Transform :=
  Compose
    [ Resize 640 640;
      Normalize [0.485; 0.456; 0.406] [0.229; 0.224; 0.225];
      ToTensorV2 ]
    None.

Definition trans_train : Transform :=
  Compose
    [ VerticalFlip 0.5;
      HorizontalFlip 0.5;
      Sharpen (0.3, 0.3) 0.5;
      RandomBrightnessContrast 0.15 0.15 0.4;
      ColorJitter 0.7 (0.01, 3.0) (-0.3, 0.3) (1.0, 5.0) (1.0, 1.5);
      RandomGamma (80, 120)%Z 0.5;
      GaussNoise (1, 30)%Z 0 0.5;
      CLAHE 0.5;
      trans_val ]
    (Some (mkBboxParams "pascal_voc")).

Definition make_coco_transforms (image_set : string) : Result Transform :=
  if String.eqb image_set "train" then Ok trans_train
  else if String.eqb image_set "val" then Ok trans_val
  else Raise (ValueError ("unknown " +:+ image_set)).

(** The stages of a pipeline in the order they are applied. *)
Definition stages (t : Transform) : list Transform :=
  match t with
  | Compose ts _ => ts
  | _ => [t]
  end.

(** The probability argument a stage is constructed with, when the source
    passes one. *)
Definition stage_p (t : Transform) : option Q :=
  match t with
  | VerticalFlip p | HorizontalFlip p | Sharpen _ p
  | RandomBrightnessContrast _ _ p | ColorJitter p _ _ _ _
  | RandomGamma _ p | GaussNoise _ _ p | CLAHE p => Some p
  | Resize _ _ | Normalize _ _ | ToTensorV2 | Compose _ _ => None
  end.

(** Whether a pipeline has a stage that draws from the random source: the
    eight augmentations do, [Resize], [Normalize] and [ToTensorV2] do not. *)
Fixpoint has_random_stage (t : Transform) : bool :=
  match t with
  | Resize _ _ | Normalize _ _ | ToTensorV2 => false
  | Compose ts _ => existsb has_random_stage ts
  | _ => true
  end.

(** ** build *)

(** The command-line arguments [build] reads. *)
Record Args : Type := mkArgs {
  coco_path : string;
  args_masks : bool;
}.

(** The torchvision parent's [__init__(img_folder, ann_file)], which reads
    the annotation file: the image ids and the parent's [__getitem__]. *)
Class Torchvision : Type := {
  super_init :
    Path -> Path -> Result (list Z * (Z -> Result (Image * list Annotation)));
}.

Context {TV : Torchvision}.

(** [CocoDetection.__init__] *)
Definition CocoDetection_init
    (img_folder ann_file : Path) (transforms : option Transform) (return_masks : bool)
  : Result CocoDetection :=
  '(ids, getitem) ← super_init img_folder ann_file;
  Ok {| ids := ids;
        super_getitem := getitem;
        _transforms := transforms;
        prepare := mkConvertCocoPolysToMask return_masks |}.

Definition PATHS (root : Path) : gmap string (Path * Path) :=
  let mode := "instances" in
  {[ "train" := (joinpath root "train2017",
                 joinpath (joinpath root "annotations") (mode +:+ "_train2017.json"));
     "val" := (joinpath root "val2017",
               joinpath (joinpath root "annotations") (mode +:+ "_val2017.json")) ]}.

(** The functions and classes of this file that a run of [build] has called,
    in the order of the calls. *)
Inductive Call : Type :=
| call_make_coco_transforms (image_set : string)
| call_CocoDetection (img_folder ann_file : Path).

(** [build]: the calls made, and the dataset or the exception. *)
Definition build (image_set : string) (args : Args) : list Call * Result CocoDetection :=
  let root := Path_of (coco_path args) in
  if negb (path_exists root)
  then ([], Raise (AssertionError
                     ("provided COCO path " +:+ path_str root +:+ " does not exist")))
  else
    match PATHS root !! image_set with
    | None => ([], Raise (KeyError image_set))
    | Some (img_folder, ann_file) =>
        match make_coco_transforms image_set with
        | Raise e => ([call_make_coco_transforms image_set], Raise e)
        | Ok transforms =>
            ([call_make_coco_transforms image_set;
              call_CocoDetection img_folder ann_file],
             CocoDetection_init img_folder ann_file (Some transforms) (args_masks args))
        end
    end.

End Coco.

Arguments Annotation : clear implicits.
Arguments RawTarget : clear implicits.
Arguments Target : clear implicits.
Arguments CocoDetection : clear implicits.
Arguments Torchvision : clear implicits.

(** ** What the specification says of one object

    The box the specification assigns to one annotation: [bbox] read as
    (x, y, width, height), turned into corners and clamped to the image.
    The tensor code above works on whole columns; these two definitions
    follow the specification's per-object wording and are compared with
    the code in the theorems. *)

Definition spec_box `{Collaborators} (w h : N) (obj : Annotation _) : option Box :=
  match obj_bbox obj with
  | Some [x; y; bw; bh] =>
      Some (mkBox (clamp 0 (inject_Z (Z.of_N w)) x)
                  (clamp 0 (inject_Z (Z.of_N h)) y)
                  (clamp 0 (inject_Z (Z.of_N w)) (x + bw))
                  (clamp 0 (inject_Z (Z.of_N h)) (y + bh)))
  | _ => None
  end.

(** An object survives when its clamped box has positive width and height. *)
Definition spec_survives `{Collaborators} (w h : N) (obj : Annotation _) : bool :=
  match spec_box w h obj with
  | Some b => Qgtb (col3 b) (col1 b) && Qgtb (col2 b) (col0 b)
  | None => false
  end.

(** An annotation list that honours the data model of the specification:
    every record has a [bbox] of four numbers, a [category_id] and an
    [area]; when masks are requested, a [segmentation] that decodes; and,
    when the first record carries [keypoints], every record carries as
    many, in whole (x, y, visibility) triples. *)
Definition well_formed `{Collaborators}
    (self : ConvertCocoPolysToMask) (w h : N) (anno : list (Annotation _)) : Prop :=
  Forall (fun obj =>
            (exists x y bw bh, obj_bbox obj = Some [x; y; bw; bh]) /\
            (exists c, obj_category_id obj = Some c) /\
            (exists a, obj_area obj = Some a) /\
            (return_masks self = true ->
             exists seg m, obj_segmentation obj = Some seg /\
                           decode_mask seg h w = Ok m)) anno /\
  match anno with
  | obj0 :: _ =>
      match obj_keypoints obj0 with
      | Some kp0 =>
          (exists K, length kp0 = (3 * K)%nat) /\
          Forall (fun obj => exists kp, obj_keypoints obj = Some kp /\
                                        length kp = length kp0) anno
      | None => True
      end
  | [] => True
  end.

(** * The same code with the numbers torch and numpy compute

    The definitions above take tensor elements as exact rationals and
    integers as unbounded.  The definitions of this part follow the same
    lines of the source with the number formats of the tensors: a
    [float32] tensor holds IEEE-754 binary32 values, every conversion to it
    and every operation on it rounds to nearest (ties to even), overflows
    to an infinity, and may give NaN; the row array of [np.hstack] is
    binary64; an [int64] tensor refuses an integer outside its range.  The
    numbers of an annotation record ([bbox], [area], [keypoints]) are
    Python floats, given by their exact value, so that a list of them
    becomes a [float32] tensor. *)

(** ** IEEE-754 binary formats *)

(** A floating-point value; a finite one is given by its exact value (the
    sign of zero is not kept: no operation below depends on it). *)
Inductive float : Type :=
| NaN
| Inf (negative : bool)
| Fin (q : Q).

(** [2^k] for an integer [k]. *)
Definition pow2 (k : Z) : Q :=
  if (0 <=? k)%Z then inject_Z (2 ^ k) else 1 # Z.to_pos (2 ^ (- k)).

(** The integer [e] with [2^e <= a/d < 2^(e+1)], for positive [a] and [d]. *)
Definition floor_log2 (a : Z) (d : positive) : Z :=
  let e0 := (Z.log2 a - Z.log2 (Zpos d))%Z in
  let above :=
    if (0 <=? e0)%Z then (Zpos d * 2 ^ e0 <=? a)%Z
    else (Zpos d <=? a * 2 ^ (- e0))%Z in
  if above then e0 else (e0 - 1)%Z.

(** The integer nearest to [num/den], the even one of two equally near. *)
Definition round_half_even (num den : Z) : Z :=
  let m := (num / den)%Z in
  match (2 * (num mod den) ?= den)%Z with
  | Lt => m
  | Gt => (m + 1)%Z
  | Eq => if Z.even m then m else (m + 1)%Z
  end.

(** The significand of [a/d] at the exponent [ex]: the integer nearest to
    [a/d / 2^ex]. *)
Definition significand (ex a : Z) (d : positive) : Z :=
  if (0 <=? ex)%Z then round_half_even a (Zpos d * 2 ^ ex)
  else round_half_even (a * 2 ^ (- ex)) (Zpos d).

(** Rounding of the real number [x] to the binary format with [prec] bits of
    precision, least exponent [emin] (of the last place of a subnormal) and
    overflow threshold [2^emax]: to nearest, ties to even. *)
Definition round (prec emin emax : Z) (x : Q) : float :=
  let a := Z.abs (Qnum x) in
  let d := Qden x in
  if (a =? 0)%Z then Fin 0
  else
    let ex := Z.max (floor_log2 a d - prec + 1) emin in
    let magnitude := Qred (inject_Z (significand ex a d) * pow2 ex) in
    if Qle_bool (pow2 emax) magnitude then Inf (Qnum x <? 0)%Z
    else Fin (if (Qnum x <? 0)%Z then - magnitude else magnitude).

(** binary32, the [torch.float32] of the tensors. *)
Definition float32 : Q -> float := round 24 (-149) 128.

(** binary64, the [float64] of Python floats and of the array [np.hstack]
    builds. *)
Definition float64 : Q -> float := round 53 (-1074) 1024.

Definition fneg (a : float) : float :=
  match a with
  | NaN => NaN
  | Inf s => Inf (negb s)
  | Fin x => Fin (- x)
  end.

(** [a + b] in the format whose rounding is [rnd]. *)
Definition fadd (rnd : Q -> float) (a b : float) : float :=
  match a, b with
  | NaN, _ | _, NaN => NaN
  | Inf s, Inf s' => if Bool.eqb s s' then Inf s else NaN
  | Inf s, Fin _ | Fin _, Inf s => Inf s
  | Fin x, Fin y => rnd (x + y)
  end.

(** [a - b] *)
Definition fsub (rnd : Q -> float) (a b : float) : float := fadd rnd a (fneg b).

(** [a / c] for a positive constant [c]. *)
Definition fdiv (rnd : Q -> float) (a : float) (c : Q) : float :=
  match a with
  | NaN => NaN
  | Inf s => Inf s
  | Fin x => rnd (x / c)
  end.

(** [a < b]; false when either is NaN. *)
Definition flt (a b : float) : bool :=
  match a, b with
  | NaN, _ | _, NaN => false
  | Inf s, Inf s' => s && negb s'
  | Inf s, Fin _ => s
  | Fin _, Inf s' => negb s'
  | Fin x, Fin y => Qgtb y x
  end.

(** [std::max(a, b)] and [std::min(a, b)] *)
Definition fmax (a b : float) : float := if flt a b then b else a.
Definition fmin (a b : float) : float := if flt b a then b else a.

(** A Python integer stored in an [int64] tensor. *)
Definition int64 (z : Z) : Result Z :=
  if ((- 2 ^ 63 <=? z) && (z <? 2 ^ 63))%Z then Ok z
  else Raise (RuntimeError "Overflow when unpacking long").

(** A Python float stored in an [int64] tensor: truncated toward zero. *)
Definition float_to_int64 (x : Q) : Result Z :=
  let z := to_int64 x in
  if ((- 2 ^ 63 <=? z) && (z <? 2 ^ 63))%Z then Ok z
  else Raise (RuntimeError "value cannot be converted to type int64 without overflow").

Module Torch.

(** A row of an [(N, 4)] [float32] tensor. *)
Record Box : Type := mkBox { col0 : float; col1 : float; col2 : float; col3 : float }.

(** [torch.as_tensor(rows, dtype=torch.float32)] *)
Definition as_tensor_float32 (rows : list (list Q)) : Result (list (list float)) :=
  t ← as_tensor rows;
  Ok (map (map float32) t).

(** [t.reshape(-1, 4)] *)
Fixpoint reshape_rows4 (flat : list float) : Result (list Box) :=
  match flat with
  | [] => Ok []
  | a :: b :: c :: d :: rest =>
      match reshape_rows4 rest with
      | Ok bs => Ok (mkBox a b c d :: bs)
      | Raise e => Raise e
      end
  | _ => Raise (RuntimeError "shape [-1, 4] is invalid for input size")
  end.

Definition reshape_m1_4 (t : list (list float)) : Result (list Box) :=
  reshape_rows4 (concat t).

(** [t.view(n, -1, 3)] *)
Fixpoint view_row3 (row : list float) : Result (list (float * float * float)) :=
  match row with
  | [] => Ok []
  | a :: b :: c :: rest =>
      match view_row3 rest with
      | Ok ts => Ok ((a, b, c) :: ts)
      | Raise e => Raise e
      end
  | _ => Raise (RuntimeError "shape [n, -1, 3] is invalid for input size")
  end.

Definition view_n_m1_3 (t : list (list float))
  : Result (list (list (float * float * float))) :=
  mapM view_row3 t.

(** [x.clamp(min, max)] of one element: NaN stays NaN. *)
Definition clamp (min max x : float) : float :=
  match x with
  | NaN => NaN
  | _ => fmin (fmax x min) max
  end.

(** [boxes[:, 2:] += boxes[:, :2]] *)
Definition add_corner (b : Box) : Box :=
  mkBox (col0 b) (col1 b)
        (fadd float32 (col2 b) (col0 b)) (fadd float32 (col3 b) (col1 b)).

(** [boxes[:, 0::2].clamp_(min=0, max=w)]; the bound [w] is taken in the
    type of the tensor. *)
Definition clamp_x (w : N) (b : Box) : Box :=
  mkBox (clamp (Fin 0) (float32 (inject_Z (Z.of_N w))) (col0 b)) (col1 b)
        (clamp (Fin 0) (float32 (inject_Z (Z.of_N w))) (col2 b)) (col3 b).

(** [boxes[:, 1::2].clamp_(min=0, max=h)] *)
Definition clamp_y (h : N) (b : Box) : Box :=
  mkBox (col0 b) (clamp (Fin 0) (float32 (inject_Z (Z.of_N h))) (col1 b))
        (col2 b) (clamp (Fin 0) (float32 (inject_Z (Z.of_N h))) (col3 b)).

(** One row of [(boxes[:, 3] > boxes[:, 1]) & (boxes[:, 2] > boxes[:, 0])]. *)
Definition keep_row (b : Box) : bool :=
  flt (col1 b) (col3 b) && flt (col0 b) (col2 b).

(** Modelled from the spec: [util.box_ops.box_xyxy_to_cxcywh], which is not
    among the source files: the center point and the extent of the corner
    box, computed on the [float32] tensor. *)
Definition box_xyxy_to_cxcywh (b : Box) : Box :=
  mkBox (fdiv float32 (fadd float32 (col0 b) (col2 b)) 2)
        (fdiv float32 (fadd float32 (col1 b) (col3 b)) 2)
        (fsub float32 (col2 b) (col0 b))
        (fsub float32 (col3 b) (col1 b)).

(** [t / 640.0] *)
Definition div_640 (b : Box) : Box :=
  mkBox (fdiv float32 (col0 b) 640) (fdiv float32 (col1 b) 640)
        (fdiv float32 (col2 b) 640) (fdiv float32 (col3 b) 640).

(** The rows of a tensor whose last dimension is unpacked into four
    coordinates. *)
Definition unbind4 (t : list (list float)) : Result (list Box) :=
  mapM (fun row =>
          match row with
          | [a; b; c; d] => Ok (mkBox a b c d)
          | _ => Raise (ValueError "expected 4 values to unpack")
          end) t.

(** [np.hstack((tmp_boxes, tmp_labels[:, np.newaxis]))]: a [float64] array,
    which holds every [float32] as it is and the labels rounded. *)
Fixpoint hstack (tmp_boxes : list Box) (tmp_labels : list Z) : Result (list (list float)) :=
  match tmp_boxes, tmp_labels with
  | [], [] => Ok []
  | b :: bs, l :: ls =>
      match hstack bs ls with
      | Ok rows => Ok ([col0 b; col1 b; col2 b; col3 b; float64 (inject_Z l)] :: rows)
      | Raise e => Raise e
      end
  | _, _ => Raise (ValueError "all the input array dimensions must match")
  end.

(** The array as the pipeline of [Collaborators] takes it, a list of rows of
    finite numbers.  The [float64] of an [int64] is finite, and so are the
    boxes [ConvertCocoPolysToMask] returns (shown below); the exception of
    this definition, which the source does not have, is never raised in
    [__getitem__]. *)
Definition finite_rows (rows : list (list float)) : Result (list (list Q)) :=
  mapM (mapM (fun x => match x with
                       | Fin q => Ok q
                       | _ => Raise (ValueError "the array holds a NaN or an infinity")
                       end)) rows.

(** [torch.tensor(rows, dtype=torch.float32)[:, :4]] *)
Definition columns_0_4 (rows : list (list Q)) : Result (list (list float)) :=
  t ← as_tensor_float32 rows;
  match t with
  | [] => Raise (IndexError "too many indices for tensor of dimension 1")
  | _ :: _ => Ok (map (take 4) t)
  end.

(** [torch.tensor(rows, dtype=torch.int64)[:, 4]]: every element of the
    rows is converted before the column is taken. *)
Definition column_4 (rows : list (list Q)) : Result (list Z) :=
  t ← as_tensor rows;
  t ← mapM (mapM float_to_int64) t;
  match t with
  | [] => Raise (IndexError "too many indices for tensor of dimension 1")
  | _ :: _ =>
      mapM (fun row =>
              match nth_error row 4 with
              | Some l => Ok l
              | None => Raise (IndexError "index 4 is out of bounds for dimension 1")
              end) t
  end.

(** A finite [float32] value that an [int64] tensor takes. *)
Definition float32_in_int64 (f : float) : Prop :=
  exists q, f = Fin q /\ float32 q = Fin q /\
            - inject_Z (2 ^ 63) <= q /\ q < inject_Z (2 ^ 63).

Definition box_in_int64 (b : Box) : Prop :=
  float32_in_int64 (col0 b) /\ float32_in_int64 (col1 b) /\
  float32_in_int64 (col2 b) /\ float32_in_int64 (col3 b).

Section Coco.

Context {C : Collaborators}.

(** The dictionary [ConvertCocoPolysToMask] returns. *)
Record Target : Type := mkTarget {
  boxes : list Box;
  labels : list Z;
  masks : option (list Mask);
  image_id : list Z;
  keypoints : option (list (list (float * float * float)));
  area : list float;
  iscrowd : list Z;
  orig_size : list Z;
  size_ : list Z;
}.

(** Lines 99 to 105. *)
Definition stack_keypoints (anno : list (Annotation C))
  : Result (option (list (list (float * float * float)))) :=
  match anno with
  | obj0 :: _ =>
      match obj_keypoints obj0 with
      | Some _ =>
          keypoints ← mapM (fun obj => getitem_key "keypoints" (obj_keypoints obj)) anno;
          keypoints ← as_tensor_float32 keypoints;
          let num_keypoints := length keypoints in
          if negb (Nat.eqb num_keypoints 0)
          then Some <$> view_n_m1_3 keypoints
          else Ok (Some [])
      | None => Ok None
      end
  | [] => Ok None
  end.

(** [ConvertCocoPolysToMask.__call__] *)
Definition ConvertCocoPolysToMask_call
    (self : ConvertCocoPolysToMask) (image : Image) (target : RawTarget C)
  : Result (Image * Target) :=
  let '(w, h) := image_size image in
  image_id ← mapM int64 [raw_image_id target];
  let anno := annotations target in
  let anno := List.filter not_crowd anno in
  boxes ← mapM (fun obj => getitem_key "bbox" (obj_bbox obj)) anno;
  boxes ← as_tensor_float32 boxes;
  boxes ← reshape_m1_4 boxes;
  let boxes := map add_corner boxes in
  let boxes := map (clamp_x w) boxes in
  let boxes := map (clamp_y h) boxes in
  classes ← mapM (fun obj => getitem_key "category_id" (obj_category_id obj)) anno;
  classes ← mapM int64 classes;
  masks ← (if return_masks self
           then
             segmentations ←
               mapM (fun obj => getitem_key "segmentation" (obj_segmentation obj)) anno;
             Some <$> convert_coco_poly_to_mask segmentations h w
           else Ok None);
  keypoints ← stack_keypoints anno;
  let keep := map keep_row boxes in
  boxes ← index_mask keep boxes;
  classes ← index_mask keep classes;
  masks ← index_mask_opt keep masks;
  keypoints ← index_mask_opt keep keypoints;
  area ← mapM (fun obj => getitem_key "area" (obj_area obj)) anno;
  let area := map float32 area in
  iscrowd ← mapM int64 (map (fun obj => default 0%Z (obj_iscrowd obj)) anno);
  area ← index_mask keep area;
  iscrowd ← index_mask keep iscrowd;
  orig_size ← mapM int64 [Z.of_N h; Z.of_N w];
  size ← mapM int64 [Z.of_N h; Z.of_N w];
  Ok (image,
      {| boxes := boxes;
         labels := classes;
         masks := masks;
         image_id := image_id;
         keypoints := keypoints;
         area := area;
         iscrowd := iscrowd;
         orig_size := orig_size;
         size_ := size |}).

(** [target["boxes"] = new_boxes; target["labels"] = new_labels] *)
Definition assign_boxes_labels
    (target : Target) (new_boxes : list Box) (new_labels : list Z) : Target :=
  {| boxes := new_boxes;
     labels := new_labels;
     masks := masks target;
     image_id := image_id target;
     keypoints := keypoints target;
     area := area target;
     iscrowd := iscrowd target;
     orig_size := orig_size target;
     size_ := size_ target |}.

(** [CocoDetection.__getitem__] *)
Definition CocoDetection_getitem (self : CocoDetection C) (idx : Z)
  : Result ((Image + ImageTensor) * Target) :=
  '(img, target) ← super_getitem self idx;
  image_id ← list_getitem (ids self) idx;
  let target := {| raw_image_id := image_id; annotations := target |} in
  '(img, target) ← ConvertCocoPolysToMask_call (prepare self) img target;
  match _transforms self with
  | Some transforms =>
      let tmp_boxes := boxes target in
      let tmp_labels := labels target in
      bboxes ← hstack tmp_boxes tmp_labels;
      bboxes ← finite_rows bboxes;
      _res ← call_transforms transforms img bboxes;
      let img := tensor_float (fst _res) in
      new_boxes ← columns_0_4 (snd _res);
      new_labels ← column_4 (snd _res);
      new_boxes ← unbind4 new_boxes;
      let new_boxes := map div_640 (map box_xyxy_to_cxcywh new_boxes) in
      Ok (inr img, assign_boxes_labels target new_boxes new_labels)
  | None => Ok (inl img, target)
  end.

(** The row of the box tensor that one record gives: its [bbox] converted,
    turned into corners and clamped (lines 87 to 90), and whether line 107
    keeps it. *)
Definition row_of (w h : N) (obj : Annotation C) : option Box :=
  match obj_bbox obj with
  | Some [x; y; bw; bh] =>
      Some (clamp_y h (clamp_x w (add_corner
              (mkBox (float32 x) (float32 y) (float32 bw) (float32 bh)))))
  | _ => None
  end.

Definition survives (w h : N) (obj : Annotation C) : bool :=
  match row_of w h obj with
  | Some b => keep_row b
  | None => false
  end.

(** The inputs on which the call returns: a well-formed list, with an
    [image_id], category ids and image sides that an [int64] tensor
    holds. *)
Definition well_formed (self : ConvertCocoPolysToMask) (image : Image)
    (target : RawTarget C) : Prop :=
  let anno := List.filter not_crowd (annotations target) in
  well_formed self (fst (image_size image)) (snd (image_size image)) anno /\
  (- 2 ^ 63 <= raw_image_id target < 2 ^ 63)%Z /\
  Forall (fun obj => forall c, obj_category_id obj = Some c ->
                               (- 2 ^ 63 <= c < 2 ^ 63)%Z) anno /\
  (Z.of_N (fst (image_size image)) < 2 ^ 63)%Z /\
  (Z.of_N (snd (image_size image)) < 2 ^ 63)%Z.

End Coco.

End Torch.

(** ** Sample data *)

(** The annotation of the specification's end-to-end example:
    [bbox=[100,50,200,150], category_id=3, iscrowd=0, area=30000]. *)
Definition ann_example `{Collaborators} : Annotation _ :=
  {| obj_bbox := Some [100; 50; 200; 150];
     obj_category_id := Some 3%Z;
     obj_segmentation := None;
     obj_iscrowd := Some 0%Z;
     obj_area := Some 30000;
     obj_keypoints := None |}.

(** [bbox=[795,0,50,50]], reaching past the right border of an 800-wide
    image. *)
Definition ann_border `{Collaborators} : Annotation _ :=
  {| obj_bbox := Some [795; 0; 50; 50];
     obj_category_id := Some 1%Z;
     obj_segmentation := None;
     obj_iscrowd := None;
     obj_area := Some 2500;
     obj_keypoints := None |}.

(** A crowd region that carries nothing but its flag. *)
Definition ann_crowd `{Collaborators} : Annotation _ :=
  {| obj_bbox := None;
     obj_category_id := None;
     obj_segmentation := None;
     obj_iscrowd := Some 1%Z;
     obj_area := None;
     obj_keypoints := None |}.

Module Sample.

(** A concrete instance of the libraries: an image is its size; masks and
    image tensors carry no content; the pipeline returns its boxes
    unchanged; only [/data/coco] exists. *)
Definition libs : Collaborators :=
  {| Image := N * N;
     image_size := fun im => im;
     Segmentation := unit;
     Mask := unit;
     decode_mask := fun _ _ _ => Ok tt;
     ImageTensor := N * N;
     tensor_float := fun t => t;
     call_transforms := fun _ im rows => Ok (im, rows);
     Path := string;
     Path_of := fun s => s;
     joinpath := fun p name => p +:+ "/" +:+ name;
     path_exists := fun p => String.eqb p "/data/coco";
     path_str := fun p => p |}.

#[local] Existing Instance libs.

(** An 800 by 600 image. *)
Definition image_800x600 : Image := (800%N, 600%N).

(** An object without keypoints, with a segmentation. *)
Definition ann_plain : Annotation libs :=
  {| obj_bbox := Some [300; 100; 80; 60];
     obj_category_id := Some 18%Z;
     obj_segmentation := Some tt;
     obj_iscrowd := None;
     obj_area := Some 4100.5;
     obj_keypoints := None |}.

(** A person with two keypoints. *)
Definition ann_person : Annotation libs :=
  {| obj_bbox := Some [10; 20; 30; 40];
     obj_category_id := Some 1%Z;
     obj_segmentation := Some tt;
     obj_iscrowd := Some 0%Z;
     obj_area := Some 1200;
     obj_keypoints := Some [12; 25; 2; 30; 50; 1] |}.

(** A person whose box lies left of the image: nothing of it survives. *)
Definition ann_outside : Annotation libs :=
  {| obj_bbox := Some [-50; 20; 30; 40];
     obj_category_id := Some 1%Z;
     obj_segmentation := Some tt;
     obj_iscrowd := Some 0%Z;
     obj_area := Some 1200;
     obj_keypoints := Some [0; 25; 2; 0; 50; 1] |}.

Definition no_masks : ConvertCocoPolysToMask := mkConvertCocoPolysToMask false.
Definition with_masks : ConvertCocoPolysToMask := mkConvertCocoPolysToMask true.

(** A parent dataset of one image, id 42, holding [ann_example]. *)
Definition parent_getitem (idx : Z) : Result (Image * list (Annotation libs)) :=
  if Z.eqb idx 0 then Ok (image_800x600, [ann_example])
  else Raise (IndexError "list index out of range").

Definition dataset_no_transforms : CocoDetection libs :=
  {| ids := [42%Z];
     super_getitem := parent_getitem;
     _transforms := None;
     prepare := no_masks |}.

Definition dataset_train : CocoDetection libs :=
  {| ids := [42%Z];
     super_getitem := parent_getitem;
     _transforms := Some trans_train;
     prepare := no_masks |}.

Definition torchvision : Torchvision libs :=
  {| super_init := fun _ _ => Ok ([42%Z], parent_getitem) |}.


(** A parent dataset of one image without annotations, under the
    validation pipeline. *)
Definition dataset_empty_image : CocoDetection libs :=
  {| ids := [7%Z];
     super_getitem := fun _ => Ok (image_800x600, []);
     _transforms := Some trans_val;
     prepare := no_masks |}.

(** The libraries again, with a decoder that fails: a segmentation is a
    flag, and only [true] decodes. *)
Definition libs_decoding : Collaborators :=
  {| Image := N * N;
     image_size := fun im => im;
     Segmentation := bool;
     Mask := unit;
     decode_mask := fun polygons _ _ =>
                      if polygons then Ok tt
                      else Raise (ValueError "segmentation does not decode");
     ImageTensor := N * N;
     tensor_float := fun t => t;
     call_transforms := fun _ im rows => Ok (im, rows);
     Path := string;
     Path_of := fun s => s;
     joinpath := fun p name => p +:+ "/" +:+ name;
     path_exists := fun p => String.eqb p "/data/coco";
     path_str := fun p => p |}.


(** A record two pixels wide. *)
Definition ann_thin : Annotation libs :=
  {| obj_bbox := Some [100; 50; 2; 150];
     obj_category_id := Some 3%Z;
     obj_segmentation := Some tt;
     obj_iscrowd := Some 0%Z;
     obj_area := Some 300;
     obj_keypoints := None |}.

(** A record whose width, 2^-20, is lost when it is added to [x] in
    [float32]. *)
Definition ann_hairline : Annotation libs :=
  {| obj_bbox := Some [100; 50; 1 # 1048576; 10];
     obj_category_id := Some 1%Z;
     obj_segmentation := Some tt;
     obj_iscrowd := Some 0%Z;
     obj_area := Some (5 # 524288);
     obj_keypoints := None |}.

(** A record whose [category_id] is 2^63. *)
Definition ann_large_id : Annotation libs :=
  {| obj_bbox := Some [10; 20; 30; 40];
     obj_category_id := Some (2 ^ 63)%Z;
     obj_segmentation := Some tt;
     obj_iscrowd := Some 0%Z;
     obj_area := Some 1200;
     obj_keypoints := None |}.

(** A parent dataset of one image, id 42, holding [ann_thin], under the
    training pipeline and without a pipeline. *)
Definition parent_getitem_thin (idx : Z) : Result (Image * list (Annotation libs)) :=
  if Z.eqb idx 0 then Ok (image_800x600, [ann_thin])
  else Raise (IndexError "list index out of range").

Definition dataset_thin_train : CocoDetection libs :=
  {| ids := [42%Z];
     super_getitem := parent_getitem_thin;
     _transforms := Some trans_train;
     prepare := no_masks |}.

Definition dataset_thin_no_transforms : CocoDetection libs :=
  {| ids := [42%Z];
     super_getitem := parent_getitem_thin;
     _transforms := None;
     prepare := no_masks |}.

End Sample.

(** * Properties *)

(** ** The result monad *)

Lemma bind_Ok_inv {A B} (f : A -> Result B) (m : Result A) (b : B) :
  m ≫= f = Ok b -> exists a, m = Ok a /\ f a = Ok b.
Proof. destruct m as [a|e]; [exists a; auto | discriminate]. Qed.

Lemma mapM_Ok_inv {A B} (f : A -> Result B) (l : list A) (l' : list B) :
  mapM f l = Ok l' -> Forall2 (fun x y => f x = Ok y) l l'.
Proof.
  revert l'. induction l as [|x l IH]; intros l' H.
  - injection H as <-. constructor.
  - cbn in H. apply bind_Ok_inv in H as (y & Hy & H).
    apply bind_Ok_inv in H as (k & Hk & H).
    injection H as <-. constructor; auto.
Qed.

Lemma mapM_Ok_intro {A B} (f : A -> Result B) (l : list A) (l' : list B) :
  Forall2 (fun x y => f x = Ok y) l l' -> mapM f l = Ok l'.
Proof.
  induction 1 as [|x y l l' Hxy _ IH]; [reflexivity|].
  cbn. rewrite Hxy. cbn. fold (mapM f l). rewrite IH. reflexivity.
Qed.

Lemma getitem_key_Ok {A} (key : string) (field : option A) (v : A) :
  getitem_key key field = Ok v <-> field = Some v.
Proof. destruct field; cbn; split; congruence. Qed.

(** ** Boolean-mask indexing *)

Lemma index_mask_Ok {A} (keep : list bool) (xs ys : list A) :
  index_mask keep xs = Ok ys <-> length keep = length xs /\ ys = select keep xs.
Proof.
  unfold index_mask. destruct (Nat.eqb_spec (length keep) (length xs)); split.
  - intros [= <-]; auto.
  - intros [_ ->]; auto.
  - discriminate.
  - intros [? _]; contradiction.
Qed.

(** What a mask keeps of a tensor depends on the tensor's first dimension
    only through the mask. *)
Lemma length_select {A} (keep : list bool) (xs : list A) :
  length keep = length xs ->
  length (select keep xs) = length (List.filter (fun k => k) keep).
Proof.
  revert xs. induction keep as [|k keep IH]; intros [|x xs]; cbn; try easy.
  intros [= H]. destruct k; cbn; rewrite IH; auto.
Qed.

Lemma select_map_filter {A B} (p : A -> bool) (g : A -> B) (l : list A) :
  select (map p l) (map g l) = map g (List.filter p l).
Proof.
  induction l as [|x l IH]; cbn; [reflexivity|].
  destruct (p x); cbn; rewrite IH; reflexivity.
Qed.

(** Selection along a pointwise relation. *)
Lemma select_Forall2 {A B} (R : A -> B -> Prop) (p : A -> bool) (l : list A) (ys : list B) :
  Forall2 R l ys -> Forall2 R (List.filter p l) (select (map p l) ys).
Proof.
  induction 1 as [|x y l ys Hxy _ IH]; cbn; [constructor|].
  destruct (p x); [constructor|]; auto.
Qed.

(** ** Reshaping the box tensor *)

Lemma Qplus_comm_eq (a b : Q) : a + b = b + a.
Proof.
  unfold Qplus. f_equal; [apply Z.add_comm | apply Pos.mul_comm].
Qed.

Lemma reshape_rows4_length (flat : list Q) (bs : list Box) :
  reshape_rows4 flat = Ok bs -> length flat = (4 * length bs)%nat.
Proof.
  revert flat. induction bs as [|b bs IH]; intros flat H.
  - destruct flat as [|a [|b [|c [|d rest]]]]; cbn in H; try discriminate; auto.
    destruct (reshape_rows4 rest); discriminate.
  - destruct flat as [|a [|b' [|c [|d rest]]]]; cbn in H; try discriminate.
    destruct (reshape_rows4 rest) as [bs'|] eqn:E; [|discriminate].
    injection H as _ ->. cbn. rewrite (IH rest E). lia.
Qed.

Lemma rectangular_rows {A} (r : list A) (rs : list (list A)) :
  rectangular (r :: rs) = true -> Forall (fun r' => length r' = length r) (r :: rs).
Proof.
  cbn. intros H. constructor; [reflexivity|].
  apply List.Forall_forall. intros r' Hin.
  rewrite forallb_forall in H. apply Nat.eqb_eq, H, Hin.
Qed.

Lemma length_concat_uniform {A} (k : nat) (rows : list (list A)) :
  Forall (fun r => length r = k) rows -> length (concat rows) = (length rows * k)%nat.
Proof.
  induction 1 as [|r rows Hr _ IH]; cbn; [reflexivity|].
  rewrite length_app, IH, Hr. reflexivity.
Qed.

Lemma reshape_rows4_rows (rows : list (list Q)) (bs : list Box) :
  Forall (fun r => length r = 4%nat) rows ->
  reshape_rows4 (concat rows) = Ok bs ->
  Forall2 (fun r b => r = [col0 b; col1 b; col2 b; col3 b]) rows bs.
Proof.
  intros Hrows. revert bs.
  induction Hrows as [|r rows Hr _ IH]; intros bs H.
  - injection H as <-. constructor.
  - destruct r as [|a [|b [|c [|d [|? ?]]]]]; try discriminate Hr.
    cbn in H. destruct (reshape_rows4 (concat rows)) as [bs'|] eqn:E; [|discriminate].
    injection H as <-. constructor; [reflexivity | apply IH; reflexivity].
Qed.

(** When the reshaped tensor has as many rows as there are [bbox] lists,
    every [bbox] has four entries and row [i] is the [bbox] of object [i]. *)
Lemma reshape_aligned (rows t : list (list Q)) (bs : list Box) :
  as_tensor rows = Ok t ->
  reshape_m1_4 t = Ok bs ->
  length bs = length rows ->
  Forall2 (fun r b => r = [col0 b; col1 b; col2 b; col3 b]) rows bs.
Proof.
  unfold as_tensor, reshape_m1_4.
  destruct (rectangular rows) eqn:Hrect; [|discriminate].
  intros [= <-] Hbs Hlen.
  destruct rows as [|r rs].
  - injection Hbs as <-. constructor.
  - apply rectangular_rows in Hrect.
    pose proof (length_concat_uniform _ _ Hrect) as Hc.
    pose proof (reshape_rows4_length _ _ Hbs) as H4.
    rewrite Hc, Hlen in H4. cbn [length] in H4.
    assert (length r = 4%nat) as Hr by nia.
    apply reshape_rows4_rows; [|assumption].
    rewrite Hr in Hrect. exact Hrect.
Qed.

(** ** The comparison and the clamp *)

Lemma Qgtb_true (a b : Q) : Qgtb a b = true <-> b < a.
Proof.
  unfold Qgtb. rewrite negb_true_iff, <- not_true_iff_false, Qle_bool_iff.
  split; [apply Qnot_le_lt | apply Qlt_not_le].
Qed.

Lemma inject_N_nonneg (n : N) : 0 <= inject_Z (Z.of_N n).
Proof. unfold Qle; cbn. lia. Qed.


Section Normalizer.

Context {C : Collaborators}.

Implicit Types (obj : Annotation C) (anno : list (Annotation C)) (b : Box).

(** ** The code's columns against the specification's objects *)

Lemma spec_box_row (w h : N) obj b :
  obj_bbox obj = Some [col0 b; col1 b; col2 b; col3 b] ->
  spec_box w h obj = Some (clamp_y h (clamp_x w (add_corner b))).
Proof.
  intros H. unfold spec_box. rewrite H.
  unfold clamp_y, clamp_x, add_corner; cbn.
  rewrite (Qplus_comm_eq (col0 b)), (Qplus_comm_eq (col1 b)). reflexivity.
Qed.

Lemma spec_survives_row (w h : N) obj b :
  spec_box w h obj = Some b -> spec_survives w h obj = keep_row b.
Proof. intros H. unfold spec_survives. rewrite H. reflexivity. Qed.

Lemma keep_rows_spec (w h : N) anno (bs : list Box) :
  Forall2 (fun obj b => spec_box w h obj = Some b) anno bs ->
  map keep_row bs = map (spec_survives w h) anno.
Proof.
  induction 1 as [|obj b anno bs Hb _ IH]; cbn; [reflexivity|].
  rewrite IH, (spec_survives_row _ _ _ _ Hb). reflexivity.
Qed.

(** ** Inversion of the two helpers *)

Lemma convert_coco_poly_to_mask_Ok (segs : list Segmentation) (h w : N) (ms : list Mask) :
  convert_coco_poly_to_mask segs h w = Ok ms ->
  Forall2 (fun seg m => decode_mask seg h w = Ok m) segs ms.
Proof.
  unfold convert_coco_poly_to_mask. intros H.
  step H ms' Hms. apply mapM_Ok_inv in Hms.
  destruct ms'; injection H as <-; exact Hms.
Qed.

Lemma stack_keypoints_Some anno ks :
  stack_keypoints anno = Ok (Some ks) ->
  (exists obj0 rest kp, anno = obj0 :: rest /\ obj_keypoints obj0 = Some kp) /\
  Forall2 (fun obj k => exists kp, obj_keypoints obj = Some kp /\ view_row3 kp = Ok k)
          anno ks.
Proof.
  unfold stack_keypoints. destruct anno as [|obj0 rest]; [discriminate|].
  destruct (obj_keypoints obj0) as [kp0|] eqn:H0; [|discriminate].
  intros H. split; [eauto|].
  step H rows Hrows. apply mapM_Ok_inv in Hrows.
  step H t Ht. unfold as_tensor in Ht.
  destruct (rectangular rows); [|discriminate]. injection Ht as <-.
  destruct (negb (length rows =? 0)%nat) eqn:Hn.
  - step H ks' Hks. injection H as ->. apply mapM_Ok_inv in Hks.
    clear Hn H0. revert ks' Hks.
    induction Hrows as [|obj r l rs Hr _ IH]; intros ks' Hks; inversion Hks; subst.
    + constructor.
    + constructor; [|apply IH; assumption].
      exists r. split; [apply getitem_key_Ok in Hr|]; assumption.
  - apply Forall2_length in Hrows. destruct rows; [discriminate Hrows | discriminate Hn].
Qed.

Lemma stack_keypoints_None anno :
  stack_keypoints anno = Ok None ->
  match anno with
  | obj0 :: _ => obj_keypoints obj0 = None
  | [] => True
  end.
Proof.
  unfold stack_keypoints. destruct anno as [|obj0 rest]; [trivial|].
  destruct (obj_keypoints obj0) as [kp0|] eqn:H0; [|reflexivity].
  intros H. step H rows Hrows. step H t Ht.
  destruct (negb (length t =? 0)%nat); [|discriminate].
  step H ks Hks. discriminate.
Qed.

(** ** What a call that returns has computed

    Every per-object entry of the returned record is read off the same
    sub-list of annotations: those that are not crowds and whose clamped
    box has positive width and height. *)

Lemma call_Ok_inv (self : ConvertCocoPolysToMask) (image : Image)
    (target : RawTarget C) (img : Image) (t : Target C) :
  ConvertCocoPolysToMask_call self image target = Ok (img, t) ->
  let w := fst (image_size image) in
  let h := snd (image_size image) in
  let anno := List.filter not_crowd (annotations target) in
  let kept := List.filter (spec_survives w h) anno in
  img = image /\
  Forall2 (fun obj b => spec_box w h obj = Some b) kept (boxes t) /\
  Forall2 (fun obj c => obj_category_id obj = Some c) kept (labels t) /\
  Forall2 (fun obj a => obj_area obj = Some a) kept (area t) /\
  iscrowd t = map (fun obj => default 0%Z (obj_iscrowd obj)) kept /\
  match masks t with
  | Some ms =>
      return_masks self = true /\
      Forall2 (fun obj m => exists seg, obj_segmentation obj = Some seg /\
                                        decode_mask seg h w = Ok m) kept ms
  | None => return_masks self = false
  end /\
  match keypoints t with
  | Some ks =>
      (exists obj0 rest kp, anno = obj0 :: rest /\ obj_keypoints obj0 = Some kp) /\
      Forall2 (fun obj k => exists kp, obj_keypoints obj = Some kp /\ view_row3 kp = Ok k)
              kept ks
  | None => match anno with
            | obj0 :: _ => obj_keypoints obj0 = None
            | [] => True
            end
  end /\
  image_id t = [raw_image_id target] /\
  orig_size t = [Z.of_N h; Z.of_N w] /\
  size_ t = [Z.of_N h; Z.of_N w].
Proof.
  unfold ConvertCocoPolysToMask_call.
  destruct (image_size image) as [w h]. cbn [fst snd].
  set (anno := List.filter not_crowd (annotations target)).
  intros H.
  step H rows Hrows. step H t0 Ht0. step H bs Hbs.
  step H classes Hcl. step H ms Hms. step H kps Hkps.
  step H boxes' Hb. step H labels' Hl. step H ms' Hms'. step H kps' Hkps'.
  step H area0 Harea. step H area' Harea'. step H crowd' Hcrowd'.
  injection H as -> ->. cbn [boxes labels masks image_id keypoints area iscrowd orig_size size_].
  apply mapM_Ok_inv in Hrows, Hcl, Harea.
  apply index_mask_Ok in Hb as [_ ->], Hl as [Hlen ->],
     Harea' as [_ ->], Hcrowd' as [_ ->].
  rewrite !length_map in Hlen.
  (* rows of the tensor against the objects *)
  assert (Forall2 (fun obj b => spec_box w h obj = Some b) anno
            (map (clamp_y h) (map (clamp_x w) (map add_corner bs)))) as Hspec.
  { assert (length bs = length rows) as Hlen'.
    { rewrite Hlen, <- (Forall2_length _ _ _ Hcl). apply (Forall2_length _ _ _ Hrows). }
    pose proof (reshape_aligned _ _ _ Ht0 Hbs Hlen') as Hal.
    clear - Hrows Hal. revert bs Hal.
    induction Hrows as [|obj r l rs Hr _ IH]; intros bs Hal; inversion Hal; subst; cbn.
    - constructor.
    - constructor; [|apply IH; assumption].
      apply spec_box_row. apply getitem_key_Ok in Hr. exact Hr. }
  rewrite (keep_rows_spec _ _ _ _ Hspec).
  set (p := spec_survives w h).
  split; [reflexivity|].
  split; [apply select_Forall2; exact Hspec|].
  split.
  { apply select_Forall2. eapply Forall2_impl; [exact Hcl|].
    intros obj c Hc. apply getitem_key_Ok in Hc. exact Hc. }
  split.
  { apply select_Forall2. eapply Forall2_impl; [exact Harea|].
    intros obj a Ha. apply getitem_key_Ok in Ha. exact Ha. }
  split; [apply select_map_filter|].
  split.
  { rewrite (keep_rows_spec _ _ _ _ Hspec) in Hms'. fold p in Hms'.
    destruct (return_masks self).
    - step Hms segs Hsegs. step Hms ms0 Hms0. subst ms.
      cbn in Hms'. step Hms' ms1 Hms1. subst ms'.
      apply index_mask_Ok in Hms1 as [_ ->].
      split; [reflexivity|]. apply select_Forall2.
      apply mapM_Ok_inv in Hsegs. apply convert_coco_poly_to_mask_Ok in Hms0.
      clear - Hsegs Hms0. revert ms0 Hms0.
      induction Hsegs as [|obj seg l segs Hs _ IH]; intros ms0 Hms0;
        inversion Hms0; subst; constructor; [|apply IH; assumption].
      exists seg. split; [apply getitem_key_Ok in Hs|]; assumption.
    - injection Hms as <-. injection Hms' as <-. reflexivity. }
  split; [|auto].
  rewrite (keep_rows_spec _ _ _ _ Hspec) in Hkps'. fold p in Hkps'.
  destruct kps as [ks|].
  - cbn in Hkps'. step Hkps' ks1 Hks1. subst kps'.
    apply index_mask_Ok in Hks1 as [_ ->].
    apply stack_keypoints_Some in Hkps as [Hhead Hall].
    split; [exact Hhead | apply select_Forall2; exact Hall].
  - injection Hkps' as <-. apply stack_keypoints_None in Hkps. exact Hkps.
Qed.

End Normalizer.

(** ** Well-formed annotations are converted without an exception *)


Lemma rectangular_uniform {A} (k : nat) (rows : list (list A)) :
  Forall (fun r => length r = k) rows -> rectangular rows = true.
Proof.
  intros H. destruct rows as [|r rs]; [reflexivity|].
  inversion H as [|? ? Hr Hrs]; subst. cbn.
  apply forallb_forall. intros r' Hin.
  rewrite List.Forall_forall in Hrs. apply Nat.eqb_eq, Hrs, Hin.
Qed.



Section Totality.

Context {C : Collaborators}.

Implicit Types (obj : Annotation C) (anno : list (Annotation C)).



End Totality.

(** * The claims about ConvertCocoPolysToMask *)

Lemma Forall2_In_r {A B} (R : A -> B -> Prop) (l : list A) (l' : list B) (y : B) :
  Forall2 R l l' -> In y l' -> exists x, In x l /\ R x y.
Proof.
  induction 1 as [|x y' l l' Hxy _ IH]; cbn; [contradiction|].
  intros [<- | Hin]; [exists x; auto|].
  destruct (IH Hin) as (x' & Hx' & HR). exists x'; auto.
Qed.



Section NormalizerClaims.

Context {C : Collaborators}.

Implicit Types (self : ConvertCocoPolysToMask) (image img : Image)
  (target : RawTarget C) (t : Target C) (obj : Annotation C).

(** C1.  Whenever [ConvertCocoPolysToMask] returns a target record, for any
    annotation list and any setting of [return_masks], the arrays [boxes],
    [labels], [area] and [iscrowd] have one length, and [masks] and
    [keypoints], when the key is present, have that length as their first
    dimension: one keep-mask was applied to all of them. *)
Theorem C1_per_object_arrays_have_one_length self image target img t :
  ConvertCocoPolysToMask_call self image target = Ok (img, t) ->
  length (boxes t) = length (labels t) /\
  length (labels t) = length (area t) /\
  length (area t) = length (iscrowd t) /\
  (forall ms, masks t = Some ms -> length ms = length (boxes t)) /\
  (forall ks, keypoints t = Some ks -> length ks = length (boxes t)).
Proof.
  intros H. apply call_Ok_inv in H.
  destruct H as (_ & Hb & Hl & Ha & Hc & Hm & Hk & _).
  apply Forall2_length in Hb, Hl, Ha.
  rewrite Hc, length_map, <- Hb, <- Hl, <- Ha.
  repeat split; try reflexivity.
  - intros ms Hms. rewrite Hms in Hm. destruct Hm as [_ Hm].
    apply Forall2_length in Hm. congruence.
  - intros ks Hks. rewrite Hks in Hk. destruct Hk as [_ Hk].
    apply Forall2_length in Hk. congruence.
Qed.



End NormalizerClaims.

Section OptionalKeys.

Context {C : Collaborators}.


End OptionalKeys.

Section EndToEnd.

Context {C : Collaborators}.


End EndToEnd.

(** * The claims about make_coco_transforms *)

Lemma make_coco_transforms_train : make_coco_transforms "train" = Ok trans_train.
Proof. reflexivity. Qed.

Lemma make_coco_transforms_val : make_coco_transforms "val" = Ok trans_val.
Proof. reflexivity. Qed.

Lemma make_coco_transforms_unknown (image_set : string) :
  image_set <> "train" -> image_set <> "val" ->
  make_coco_transforms image_set = Raise (ValueError ("unknown " +:+ image_set)).
Proof.
  intros Ht Hv. unfold make_coco_transforms.
  apply String.eqb_neq in Ht, Hv. rewrite Ht, Hv. reflexivity.
Qed.

(** C7.  [make_coco_transforms] returns a pipeline when its argument is
    exactly ['train'] or ['val'], and raises [ValueError] for every other
    string: it returns on no other mode. *)
Theorem C7_make_coco_transforms_modes (image_set : string) :
  (image_set = "train" -> make_coco_transforms image_set = Ok trans_train) /\
  (image_set = "val" -> make_coco_transforms image_set = Ok trans_val) /\
  (image_set <> "train" -> image_set <> "val" ->
   make_coco_transforms image_set = Raise (ValueError ("unknown " +:+ image_set))) /\
  ((exists pipeline, make_coco_transforms image_set = Ok pipeline) <->
   image_set = "train" \/ image_set = "val").
Proof.
  split; [intros ->; reflexivity|]. split; [intros ->; reflexivity|].
  split; [apply make_coco_transforms_unknown|].
  split.
  - intros [pipeline H].
    destruct (String.eqb_spec image_set "train") as [|Ht]; [left; assumption|].
    destruct (String.eqb_spec image_set "val") as [|Hv]; [right; assumption|].
    rewrite (make_coco_transforms_unknown _ Ht Hv) in H. discriminate.
  - intros [-> | ->]; eexists; reflexivity.
Qed.

(** C8.  The ['train'] pipeline is, in this order: vertical flip p=0.5,
    horizontal flip p=0.5, sharpen p=0.5, brightness/contrast jitter p=0.4,
    color jitter p=0.7, gamma p=0.5, Gaussian noise p=0.5, CLAHE p=0.5, and
    last the whole ['val'] pipeline; the ['val'] pipeline is resize to 640
    by 640, per-channel normalization and tensor conversion: none of its
    stages is given a probability, and it has no random stage. *)
Theorem C8_train_and_val_pipelines :
  exists train val,
    make_coco_transforms "train" = Ok train /\
    make_coco_transforms "val" = Ok val /\
    stages train =
      [ VerticalFlip 0.5;
        HorizontalFlip 0.5;
        Sharpen (0.3, 0.3) 0.5;
        RandomBrightnessContrast 0.15 0.15 0.4;
        ColorJitter 0.7 (0.01, 3.0) (-0.3, 0.3) (1.0, 5.0) (1.0, 1.5);
        RandomGamma (80, 120)%Z 0.5;
        GaussNoise (1, 30)%Z 0 0.5;
        CLAHE 0.5;
        val ] /\
    map stage_p (stages train) =
      [Some 0.5; Some 0.5; Some 0.5; Some 0.4; Some 0.7; Some 0.5; Some 0.5; Some 0.5;
       None] /\
    stages val =
      [ Resize 640 640;
        Normalize [0.485; 0.456; 0.406] [0.229; 0.224; 0.225];
        ToTensorV2 ] /\
    map stage_p (stages val) = [None; None; None] /\
    has_random_stage val = false /\
    Forall (fun s => has_random_stage s = true) (take 8 (stages train)).
Proof.
  exists trans_train, trans_val. repeat split; repeat constructor.
Qed.

(** * The claims about build *)

Section Build.

Context {C : Collaborators} {TV : Torchvision C}.

Lemma PATHS_unknown (root : Path) (image_set : string) :
  image_set <> "train" -> image_set <> "val" -> PATHS root !! image_set = None.
Proof.
  intros Ht Hv. unfold PATHS.
  rewrite lookup_insert_ne by congruence.
  apply lookup_singleton_ne. congruence.
Qed.

Lemma PATHS_known (root : Path) (image_set : string) (v : Path * Path) :
  PATHS root !! image_set = Some v -> image_set = "train" \/ image_set = "val".
Proof.
  intros H.
  destruct (String.eqb_spec image_set "train") as [|Ht]; [left; assumption|].
  destruct (String.eqb_spec image_set "val") as [|Hv]; [right; assumption|].
  rewrite (PATHS_unknown _ _ Ht Hv) in H. discriminate.
Qed.

(** C10, as the code has it.  For an [image_set] other than ['train'] and
    ['val'], [build] calls neither [make_coco_transforms] nor the dataset
    class: when the dataset root exists it fails at the [PATHS] lookup with
    [KeyError], and when the root is missing it fails before that, at the
    assertion.  Whenever [build] does call [make_coco_transforms], the call
    returns a pipeline: the factory's [ValueError] is not reachable
    through [build]. *)
Theorem C10_unknown_image_set_never_reaches_factory (args : Args) :
  let root := Path_of (coco_path args) in
  (forall image_set,
      image_set <> "train" -> image_set <> "val" ->
      fst (build image_set args) = [] /\
      (path_exists root = true ->
       snd (build image_set args) = Raise (KeyError image_set)) /\
      (path_exists root = false ->
       snd (build image_set args) =
         Raise (AssertionError
                  ("provided COCO path " +:+ path_str root +:+ " does not exist")))) /\
  (forall image_set s,
      In (call_make_coco_transforms s) (fst (build image_set args)) ->
      s = image_set /\ exists pipeline, make_coco_transforms s = Ok pipeline).
Proof.
  cbn zeta. split.
  - intros image_set Ht Hv. unfold build.
    destruct (path_exists (Path_of (coco_path args))); cbn [negb].
    + rewrite (PATHS_unknown _ _ Ht Hv).
      split; [reflexivity|]. split; [intros _; reflexivity | discriminate].
    + split; [reflexivity|]. split; [discriminate | intros _; reflexivity].
  - intros image_set s. unfold build.
    destruct (path_exists (Path_of (coco_path args))); cbn [negb]; [|contradiction].
    destruct (PATHS (Path_of (coco_path args)) !! image_set) as [[img_folder ann_file]|]
      eqn:Hlookup; [|contradiction].
    apply PATHS_known in Hlookup.
    destruct Hlookup as [-> | ->]; cbn; intros [[= <-] | [? | []]]; try discriminate;
      (split; [reflexivity | eexists; reflexivity]).
Qed.

(** A dataset that [build] returns always holds a pipeline. *)
Lemma build_sets_transforms (image_set : string) (args : Args) (ds : CocoDetection C) :
  snd (build image_set args) = Ok ds -> _transforms ds <> None.
Proof.
  unfold build.
  destruct (path_exists (Path_of (coco_path args))); [|discriminate].
  destruct (PATHS _ !! image_set) as [[img_folder ann_file]|]; [|discriminate].
  destruct (make_coco_transforms image_set) as [transforms|]; [|discriminate].
  cbn. unfold CocoDetection_init. intros H.
  step H parent Hparent. destruct parent as [ids0 getitem0].
  injection H as <-. discriminate.
Qed.

End Build.

(** * Further properties of ConvertCocoPolysToMask *)



Section NormalizerMore.

Context {C : Collaborators}.

Implicit Types (self : ConvertCocoPolysToMask) (image img : Image)
  (target : RawTarget C) (t : Target C) (obj : Annotation C)
  (anno : list (Annotation C)).


(** X5.  The returned [iscrowd] array holds only zeros: a record with a
    non-zero flag was dropped at the start, and an absent flag reads 0. *)
Theorem X5_iscrowd_all_zero self image target img t :
  ConvertCocoPolysToMask_call self image target = Ok (img, t) ->
  Forall (fun c => c = 0%Z) (iscrowd t).
Proof.
  intros H. apply call_Ok_inv in H.
  destruct H as (_ & _ & _ & _ & -> & _).
  apply List.Forall_forall. intros c Hin.
  apply in_map_iff in Hin as (obj & <- & Hobj).
  apply filter_In in Hobj as [Hobj _]. apply filter_In in Hobj as [_ Hkeep].
  unfold not_crowd in Hkeep. destruct (obj_iscrowd obj) as [v|]; cbn; [|reflexivity].
  apply Z.eqb_eq, Hkeep.
Qed.


(** X8.  [convert_coco_poly_to_mask] returns exactly when every
    segmentation decodes, and then the stack holds one mask per
    segmentation, in order; for no segmentation it is the empty stack. *)
Theorem X8_convert_coco_poly_to_mask_returns
    (segmentations : list Segmentation) (height width : N) (ms : list Mask) :
  convert_coco_poly_to_mask segmentations height width = Ok ms <->
  Forall2 (fun polygons m => decode_mask polygons height width = Ok m) segmentations ms.
Proof.
  split; [apply convert_coco_poly_to_mask_Ok|].
  intros H. unfold convert_coco_poly_to_mask.
  rewrite (mapM_Ok_intro _ _ _ H). destruct ms; reflexivity.
Qed.

(** X9.  [convert_coco_poly_to_mask] raises the exception of the first
    segmentation that fails to decode; the segmentations after it are not
    looked at. *)
Theorem X9_convert_coco_poly_to_mask_first_failure
    (before after : list Segmentation) (polygons : Segmentation)
    (height width : N) (e : Exception) :
  Forall (fun s => exists m, decode_mask s height width = Ok m) before ->
  decode_mask polygons height width = Raise e ->
  convert_coco_poly_to_mask (before ++ polygons :: after) height width = Raise e.
Proof.
  intros Hbefore He. unfold convert_coco_poly_to_mask.
  assert (mapM (fun s => decode_mask s height width) (before ++ polygons :: after)
          = Raise e) as ->; [|reflexivity].
  induction Hbefore as [|s before [m Hm] _ IH]; cbn.
  - rewrite He. reflexivity.
  - rewrite Hm. cbn. fold (mapM (fun s => decode_mask s height width)
                             (before ++ polygons :: after)).
    rewrite IH. reflexivity.
Qed.


End NormalizerMore.

(** * Further properties of CocoDetection.__getitem__ *)

Lemma tensor_2d_Ok (rows t : list (list Q)) :
  tensor_2d rows = Ok t -> t = rows /\ rows <> [].
Proof.
  unfold tensor_2d, as_tensor. destruct (rectangular rows); [|discriminate].
  cbn. destruct rows; [discriminate|]. intros [= <-]. split; [reflexivity | discriminate].
Qed.

Section GetitemMore.

Context {C : Collaborators}.

Implicit Types (self : CocoDetection C) (t prepared : Target C).

(** What a call of [__getitem__] that returns has computed. *)
Lemma getitem_Ok_inv self (idx : Z) (img : Image + ImageTensor) t :
  CocoDetection_getitem self idx = Ok (img, t) ->
  exists image anns img_id prepared,
    super_getitem self idx = Ok (image, anns) /\
    list_getitem (ids self) idx = Ok img_id /\
    ConvertCocoPolysToMask_call (prepare self) image (mkRawTarget img_id anns)
      = Ok (image, prepared) /\
    match _transforms self with
    | Some transforms =>
        exists bboxes res_image rows corners new_labels,
          hstack (boxes prepared) (labels prepared) = Ok bboxes /\
          call_transforms transforms image bboxes = Ok (res_image, rows) /\
          rows <> [] /\
          unbind4 (map (take 4) rows) = Ok corners /\
          column_4 rows = Ok new_labels /\
          img = inr (tensor_float res_image) /\
          t = assign_boxes_labels prepared
                (map div_640 (map box_xyxy_to_cxcywh corners)) new_labels
    | None => img = inl image /\ t = prepared
    end.
Proof.
  unfold CocoDetection_getitem. intros H.
  step H fetched Hfetch. destruct fetched as [image anns].
  step H img_id Hid. step H normalized Hprep. destruct normalized as [image' prepared].
  pose proof Hprep as Hinv. apply call_Ok_inv in Hinv as [-> _].
  exists image, anns, img_id, prepared. repeat split; try assumption.
  destruct (_transforms self) as [transforms|].
  - step H bboxes Hstack. step H res Hres. destruct res as [res_image rows].
    cbn [fst snd] in H.
    step H new_boxes Hcols. step H new_labels Hlabels. step H corners Hunbind.
    injection H as -> ->.
    unfold columns_0_4 in Hcols. step Hcols t2 Ht2. subst new_boxes.
    apply tensor_2d_Ok in Ht2 as [-> Hne].
    exists bboxes, res_image, rows, corners, new_labels. repeat split; assumption.
  - injection H as <- <-. split; reflexivity.
Qed.

(** X12.  [__getitem__] reassigns only [boxes] and [labels]: the entries
    [masks], [keypoints], [area], [iscrowd], [image_id], [orig_size] and
    [size] of the returned record are those of the normalized record, with
    or without a pipeline.  So [image_id] is [ids[idx]], and [size] is
    still the size of the image before any transformation. *)
Theorem X12_getitem_keeps_other_entries self (idx : Z) (img : Image + ImageTensor) t :
  CocoDetection_getitem self idx = Ok (img, t) ->
  exists image anns img_id prepared,
    super_getitem self idx = Ok (image, anns) /\
    list_getitem (ids self) idx = Ok img_id /\
    ConvertCocoPolysToMask_call (prepare self) image (mkRawTarget img_id anns)
      = Ok (image, prepared) /\
    masks t = masks prepared /\
    keypoints t = keypoints prepared /\
    area t = area prepared /\
    iscrowd t = iscrowd prepared /\
    image_id t = [img_id] /\
    orig_size t = [Z.of_N (snd (image_size image)); Z.of_N (fst (image_size image))] /\
    size_ t = [Z.of_N (snd (image_size image)); Z.of_N (fst (image_size image))].
Proof.
  intros H. apply getitem_Ok_inv in H.
  destruct H as (image & anns & img_id & prepared & Hfetch & Hid & Hprep & H).
  exists image, anns, img_id, prepared.
  split; [exact Hfetch|]. split; [exact Hid|]. split; [exact Hprep|].
  apply call_Ok_inv in Hprep. destruct Hprep as (_ & _ & _ & _ & _ & _ & _ & Hi & Ho & Hs).
  cbn [raw_image_id] in Hi.
  assert (masks t = masks prepared /\ keypoints t = keypoints prepared /\
          area t = area prepared /\ iscrowd t = iscrowd prepared /\
          image_id t = image_id prepared /\ orig_size t = orig_size prepared /\
          size_ t = size_ prepared) as (-> & -> & -> & -> & -> & -> & ->).
  { destruct (_transforms self).
    - destruct H as (? & ? & ? & ? & ? & _ & _ & _ & _ & _ & _ & ->).
      repeat split; reflexivity.
    - destruct H as [_ ->]. repeat split; reflexivity. }
  repeat split; assumption.
Qed.

(** X13.  With a pipeline, when the pipeline's result holds no box (an
    empty list), [__getitem__] raises [IndexError]: the empty list becomes
    a one-dimensional tensor, which line 46 indexes on two dimensions. *)
Theorem X13_getitem_empty_pipeline_output_raises
    self (idx : Z) (image : Image) (anns : list (Annotation C)) (img_id : Z)
    prepared (transforms : Transform) (bboxes : list (list Q))
    (res_image : ImageTensor) :
  super_getitem self idx = Ok (image, anns) ->
  list_getitem (ids self) idx = Ok img_id ->
  ConvertCocoPolysToMask_call (prepare self) image (mkRawTarget img_id anns)
    = Ok (image, prepared) ->
  _transforms self = Some transforms ->
  hstack (boxes prepared) (labels prepared) = Ok bboxes ->
  call_transforms transforms image bboxes = Ok (res_image, []) ->
  CocoDetection_getitem self idx =
    Raise (IndexError "too many indices for tensor of dimension 1").
Proof.
  intros Hfetch Hid Hprep Htr Hh Hpipe. unfold CocoDetection_getitem.
  rewrite Hfetch. cbn [mbind Result_bind]. rewrite Hid. cbn [mbind Result_bind].
  rewrite Hprep. cbn [mbind Result_bind]. rewrite Htr, Hh. cbn [mbind Result_bind].
  rewrite Hpipe. reflexivity.
Qed.

(** X14.  With a pipeline, a call of [__getitem__] that returns gives at
    least one box, and as many labels as boxes. *)
Theorem X14_getitem_with_pipeline_returns_boxes
    self (idx : Z) (img : Image + ImageTensor) t :
  CocoDetection_getitem self idx = Ok (img, t) ->
  _transforms self <> None ->
  boxes t <> [] /\ length (labels t) = length (boxes t) /\
  exists tensor, img = inr tensor.
Proof.
  intros H Htr. apply getitem_Ok_inv in H.
  destruct H as (image & anns & img_id & prepared & _ & _ & _ & H).
  destruct (_transforms self) as [transforms|]; [|contradiction].
  destruct H as (bboxes & res_image & rows & corners & new_labels &
                 _ & _ & Hne & Hcorners & Hlabels & -> & ->).
  cbn [assign_boxes_labels boxes labels].
  unfold unbind4 in Hcorners. apply mapM_Ok_inv, Forall2_length in Hcorners.
  unfold column_4 in Hlabels. step Hlabels t2 Ht2. apply tensor_2d_Ok in Ht2 as [-> _].
  apply mapM_Ok_inv, Forall2_length in Hlabels.
  rewrite !length_map in *. split; [|split; [congruence | eauto]].
  intros Hnil. apply (f_equal (@length Box)) in Hnil. rewrite !length_map in Hnil.
  destruct rows; [contradiction | cbn in *; congruence].
Qed.

End GetitemMore.

(** * Further properties of build *)

Section BuildMore.

Context {C : Collaborators} {TV : Torchvision C}.

(** X15.  When [build] returns a dataset: the root exists; [image_set] is
    ['train'] or ['val']; [make_coco_transforms] and then the dataset class
    were called, the latter on [root/<image_set>2017] and
    [root/annotations/instances_<image_set>2017.json]; the dataset holds the
    pipeline of that [image_set], the flag [args.masks], and the ids and
    items the parent class read. *)
Theorem X15_build_returns (image_set : string) (args : Args)
    (calls : list Call) (ds : CocoDetection C) :
  build image_set args = (calls, Ok ds) ->
  let root := Path_of (coco_path args) in
  let img_folder := joinpath root (image_set +:+ "2017") in
  let ann_file :=
    joinpath (joinpath root "annotations") ("instances_" +:+ image_set +:+ "2017.json") in
  path_exists root = true /\
  (image_set = "train" \/ image_set = "val") /\
  calls = [call_make_coco_transforms image_set; call_CocoDetection img_folder ann_file] /\
  (exists pipeline, make_coco_transforms image_set = Ok pipeline /\
                    _transforms ds = Some pipeline) /\
  return_masks (prepare ds) = args_masks args /\
  super_init img_folder ann_file = Ok (ids ds, super_getitem ds).
Proof.
  cbn zeta. unfold build.
  destruct (path_exists (Path_of (coco_path args))); cbn [negb]; [|discriminate].
  destruct (PATHS (Path_of (coco_path args)) !! image_set) as [[img_folder ann_file]|]
    eqn:Hlookup; [|discriminate].
  assert ((image_set = "train" \/ image_set = "val") /\
          img_folder = joinpath (Path_of (coco_path args)) (image_set +:+ "2017") /\
          ann_file = joinpath (joinpath (Path_of (coco_path args)) "annotations")
                       ("instances_" +:+ image_set +:+ "2017.json"))
    as (Hmode & -> & ->).
  { pose proof (PATHS_known _ _ _ Hlookup) as Hmode. split; [exact Hmode|].
    unfold PATHS in Hlookup. destruct Hmode as [-> | ->].
    - rewrite lookup_insert_eq in Hlookup. injection Hlookup as <- <-.
      split; reflexivity.
    - rewrite lookup_insert_ne, lookup_singleton_eq in Hlookup by discriminate.
      injection Hlookup as <- <-. split; reflexivity. }
  destruct (make_coco_transforms image_set) as [pipeline|] eqn:Hmake; [|discriminate].
  intros [= <- Hinit]. unfold CocoDetection_init in Hinit.
  step Hinit parent Hparent. destruct parent as [ids0 getitem0].
  injection Hinit as <-.
  cbn [_transforms prepare return_masks ids super_getitem].
  repeat split; try assumption; try reflexivity. eauto.
Qed.

(** X16.  A dataset that [build] returned never yields the PIL image or a
    record without boxes: every call of its [__getitem__] that returns
    gives the transformed image tensor, at least one box, and as many
    labels as boxes. *)
Theorem X16_built_dataset_getitem (image_set : string) (args : Args)
    (calls : list Call) (ds : CocoDetection C)
    (idx : Z) (img : Image + ImageTensor) (t : Target C) :
  build image_set args = (calls, Ok ds) ->
  CocoDetection_getitem ds idx = Ok (img, t) ->
  (exists tensor, img = inr tensor) /\
  boxes t <> [] /\ length (labels t) = length (boxes t).
Proof.
  intros Hbuild H.
  assert (_transforms ds <> None) as Htr.
  { apply (build_sets_transforms image_set args). rewrite Hbuild. reflexivity. }
  apply getitem_Ok_inv in H.
  destruct H as (image & anns & img_id & prepared & _ & _ & _ & H).
  destruct (_transforms ds) as [transforms|]; [|contradiction].
  destruct H as (bboxes & res_image & rows & corners & new_labels &
                 _ & _ & Hne & Hcorners & Hlabels & -> & ->).
  cbn [assign_boxes_labels boxes labels].
  unfold unbind4 in Hcorners. apply mapM_Ok_inv, Forall2_length in Hcorners.
  unfold column_4 in Hlabels. step Hlabels t2 Ht2. apply tensor_2d_Ok in Ht2 as [-> _].
  apply mapM_Ok_inv, Forall2_length in Hlabels.
  rewrite !length_map in *. split; [eauto|]. split; [|congruence].
  intros Hnil. apply (f_equal (@length Box)) in Hnil. rewrite !length_map in Hnil.
  destruct rows; [contradiction | cbn in *; congruence].
Qed.

End BuildMore.

(** * Properties of the code with its number formats *)

(** ** Rounding to a binary format *)

Lemma Qpow2_Z (k : Z) : (0 <= k)%Z -> 2 ^ k == inject_Z (2 ^ k).
Proof. intros Hk. symmetry. apply (Zpower_Qpower 2 k Hk). Qed.

Lemma Qpow2_pos (k : Z) : 0 < 2 ^ k.
Proof. apply Qpower_0_lt. reflexivity. Qed.

Lemma Qpow2_plus (n m : Z) : 2 ^ (n + m) == 2 ^ n * 2 ^ m.
Proof. apply Qpower_plus. discriminate. Qed.

Lemma Qpow2_le (n m : Z) : (n <= m)%Z -> 2 ^ n <= 2 ^ m.
Proof. intros H. apply Qpower_le_compat_l; [exact H | discriminate]. Qed.

Lemma Qpow2_lt (n m : Z) : (n < m)%Z -> 2 ^ n < 2 ^ m.
Proof. intros H. apply Qpower_lt_compat_l; [exact H | reflexivity]. Qed.

Lemma Qpow2_cancel (k : Z) : 2 ^ k * 2 ^ (- k) == 1.
Proof. rewrite <- Qpow2_plus. replace (k + - k)%Z with 0%Z by lia. reflexivity. Qed.

Lemma pow2_Qpower (k : Z) : pow2 k == 2 ^ k.
Proof.
  unfold pow2. destruct (0 <=? k)%Z eqn:Hk.
  - apply Z.leb_le in Hk. symmetry. apply Qpow2_Z, Hk.
  - apply Z.leb_gt in Hk.
    assert (0 < 2 ^ (- k))%Z as Hp by (apply Z.pow_pos_nonneg; lia).
    assert (2 ^ (- k) == inject_Z (2 ^ (- k))) as H1 by (apply Qpow2_Z; lia).
    pose proof (Qpow2_cancel k) as H2. rewrite H1 in H2.
    assert (inject_Z (2 ^ (- k)) * (1 # Z.to_pos (2 ^ (- k))) == 1) as H3.
    { unfold Qeq, inject_Z, Qmult. cbn [Qnum Qden].
      rewrite Pos2Z.inj_mul, Z2Pos.id by exact Hp. lia. }
    assert (0 < inject_Z (2 ^ (- k))) as H4.
    { rewrite <- H1. apply Qpow2_pos. }
    set (u := inject_Z (2 ^ (- k))) in *. set (v := 1 # Z.to_pos (2 ^ (- k))) in *.
    set (p := 2 ^ k) in *.
    apply (Qmult_inj_l _ _ u); [lra|]. lra.
Qed.

Lemma Qlog2_spec (a : Z) :
  (0 < a)%Z -> 2 ^ Z.log2 a <= inject_Z a /\ inject_Z a < 2 ^ (Z.log2 a + 1).
Proof.
  intros Ha. destruct (Z.log2_spec a Ha) as [H1 H2].
  pose proof (Z.log2_nonneg a) as H0.
  rewrite !Qpow2_Z by lia. split; [rewrite <- Zle_Qle | rewrite <- Zlt_Qlt]; lia.
Qed.

Lemma floor_log2_spec (a : Z) (d : positive) :
  (0 < a)%Z ->
  2 ^ floor_log2 a d * inject_Z (Zpos d) <= inject_Z a /\
  inject_Z a < 2 ^ (floor_log2 a d + 1) * inject_Z (Zpos d).
Proof.
  intros Ha. unfold floor_log2.
  destruct (Qlog2_spec a Ha) as [HA1 HA2].
  destruct (Qlog2_spec (Zpos d) eq_refl) as [HD1 HD2].
  set (la := Z.log2 a) in *. set (ld := Z.log2 (Zpos d)) in *.
  set (e0 := (la - ld)%Z).
  set (Qa := inject_Z a) in *. set (Qd := inject_Z (Zpos d)) in *.
  assert ((if (0 <=? e0)%Z then (Zpos d * 2 ^ e0 <=? a)%Z
           else (Zpos d <=? a * 2 ^ (- e0))%Z) = true <->
          2 ^ e0 * Qd <= Qa) as Htest.
  { destruct (0 <=? e0)%Z eqn:He.
    - apply Z.leb_le in He. rewrite Z.leb_le, Zle_Qle, inject_Z_mult.
      rewrite <- (Qpow2_Z e0 He). fold Qa Qd. split; intros; lra.
    - apply Z.leb_gt in He. rewrite Z.leb_le, Zle_Qle, inject_Z_mult.
      rewrite <- (Qpow2_Z (- e0)) by lia. fold Qa Qd.
      pose proof (Qpow2_cancel e0) as Hc.
      pose proof (Qpow2_pos e0) as Hp. pose proof (Qpow2_pos (- e0)) as Hn.
      set (p := 2 ^ e0) in *. set (n := 2 ^ (- e0)) in *.
      split; intros H.
      + assert (p * Qd <= p * (Qa * n)) by (apply Qmult_le_l; assumption).
        assert (p * (Qa * n) == Qa * (p * n)) as E by ring. rewrite E, Hc in H0. lra.
      + assert (n * (p * Qd) <= n * Qa) by (apply Qmult_le_l; assumption).
        assert (n * (p * Qd) == Qd * (p * n)) as E by ring. rewrite E, Hc in H0. lra. }
  pose proof (Qpow2_pos e0) as Hp0.
  assert (2 ^ (la + 1) == 2 ^ (e0 + 1) * 2 ^ ld) as E1.
  { rewrite <- Qpow2_plus. replace (e0 + 1 + ld)%Z with (la + 1)%Z by lia. reflexivity. }
  assert (2 ^ la == 2 ^ (e0 - 1) * 2 ^ (ld + 1)) as E2.
  { rewrite <- Qpow2_plus. replace (e0 - 1 + (ld + 1))%Z with la by lia. reflexivity. }
  destruct (if (0 <=? e0)%Z then _ else _) eqn:Habove.
  - split; [apply Htest; reflexivity|].
    pose proof (Qpow2_pos (e0 + 1)) as Hp1.
    assert (2 ^ (e0 + 1) * 2 ^ ld <= 2 ^ (e0 + 1) * Qd)
      by (apply Qmult_le_l; assumption).
    lra.
  - replace (e0 - 1 + 1)%Z with e0 by lia. split.
    + pose proof (Qpow2_pos (e0 - 1)) as Hp1.
      assert (2 ^ (e0 - 1) * Qd < 2 ^ (e0 - 1) * 2 ^ (ld + 1))
        by (apply Qmult_lt_l; assumption).
      lra.
    + apply Qnot_le_lt. intros Hle. apply Htest in Hle. congruence.
Qed.

Lemma round_half_even_exact (k den : Z) :
  (0 < den)%Z -> round_half_even (k * den) den = k.
Proof.
  intros Hd. unfold round_half_even.
  rewrite Z.div_mul, Z.mod_mul by lia.
  destruct (2 * 0 ?= den)%Z eqn:E; [| reflexivity |].
  - apply Z.compare_eq_iff in E. lia.
  - apply Z.compare_gt_iff in E. lia.
Qed.

Lemma round_half_even_bounds (n den K : Z) :
  (0 < den)%Z -> (0 <= n)%Z -> (n < K * den)%Z ->
  (0 <= round_half_even n den <= K)%Z.
Proof.
  intros Hd Hn HK. unfold round_half_even.
  assert (0 <= n / den)%Z by (apply Z.div_pos; lia).
  assert (n / den < K)%Z by (apply Z.div_lt_upper_bound; lia).
  destruct (2 * (n mod den) ?= den)%Z; [destruct (Z.even _)| |]; lia.
Qed.

Lemma significand_bounds (prec ex a : Z) (d : positive) :
  (0 <= prec)%Z -> (0 <= a)%Z ->
  inject_Z a < 2 ^ (ex + prec) * inject_Z (Zpos d) ->
  (0 <= significand ex a d <= 2 ^ prec)%Z.
Proof.
  intros Hp Ha H. unfold significand.
  rewrite Qpow2_plus, (Qpow2_Z prec Hp) in H.
  destruct (0 <=? ex)%Z eqn:He.
  - apply Z.leb_le in He.
    assert (0 < 2 ^ ex)%Z by (apply Z.pow_pos_nonneg; lia).
    apply round_half_even_bounds; [lia | lia |].
    rewrite Zlt_Qlt, !inject_Z_mult, <- (Qpow2_Z ex He). lra.
  - apply Z.leb_gt in He.
    assert (0 < 2 ^ (- ex))%Z by (apply Z.pow_pos_nonneg; lia).
    apply round_half_even_bounds; [lia | lia |].
    rewrite Zlt_Qlt, !inject_Z_mult, <- (Qpow2_Z (- ex)) by lia.
    pose proof (Qpow2_cancel ex) as Hc. pose proof (Qpow2_pos (- ex)) as Hn.
    set (p := 2 ^ ex) in *. set (n := 2 ^ (- ex)) in *.
    set (Qa := inject_Z a) in *. set (Qd := inject_Z (Zpos d)) in *.
    set (P := inject_Z (2 ^ prec)) in *.
    assert (Qa * n < p * P * Qd * n) by (apply Qmult_lt_r; assumption).
    assert (p * P * Qd * n == P * Qd * (p * n)) as E by ring.
    rewrite E, Hc in H1. lra.
Qed.

Lemma significand_exact (ex a K : Z) (d : positive) :
  inject_Z a == inject_Z K * 2 ^ ex * inject_Z (Zpos d) ->
  significand ex a d = K.
Proof.
  intros H. unfold significand.
  destruct (0 <=? ex)%Z eqn:He.
  - apply Z.leb_le in He.
    assert (0 < 2 ^ ex)%Z by (apply Z.pow_pos_nonneg; lia).
    replace a with (K * (Zpos d * 2 ^ ex))%Z; [apply round_half_even_exact; lia|].
    symmetry. apply inject_Z_injective.
    rewrite H, !inject_Z_mult, <- (Qpow2_Z ex He). ring.
  - apply Z.leb_gt in He.
    assert (0 < 2 ^ (- ex))%Z by (apply Z.pow_pos_nonneg; lia).
    replace (a * 2 ^ (- ex))%Z with (K * Zpos d)%Z;
      [apply round_half_even_exact; lia|].
    apply inject_Z_injective.
    rewrite !inject_Z_mult, H, <- (Qpow2_Z (- ex)) by lia.
    pose proof (Qpow2_cancel ex) as Hc.
    set (p := 2 ^ ex) in *. set (n := 2 ^ (- ex)) in *.
    assert (inject_Z K * p * inject_Z (Zpos d) * n
            == inject_Z K * inject_Z (Zpos d) * (p * n)) as E by ring.
    rewrite E, Hc. ring.
Qed.

Lemma round_unfold (prec emin emax : Z) (x : Q) :
  Qnum x <> 0%Z ->
  round prec emin emax x =
    let a := Z.abs (Qnum x) in
    let ex := Z.max (floor_log2 a (Qden x) - prec + 1) emin in
    let magnitude := Qred (inject_Z (significand ex a (Qden x)) * pow2 ex) in
    if Qle_bool (pow2 emax) magnitude then Inf (Qnum x <? 0)%Z
    else Fin (if (Qnum x <? 0)%Z then - magnitude else magnitude).
Proof.
  intros H. unfold round.
  destruct (Z.abs (Qnum x) =? 0)%Z eqn:E; [apply Z.eqb_eq in E; lia | reflexivity].
Qed.

Lemma Qabs_num_den (x : Q) :
  Qabs x * inject_Z (Zpos (Qden x)) == inject_Z (Z.abs (Qnum x)).
Proof.
  destruct x as [n d]. unfold Qabs, Qeq, Qmult, inject_Z. cbn [Qnum Qden]. 
  rewrite Pos2Z.inj_mul. lia.
Qed.

Lemma Qopp_involutive_eq (q : Q) : - - q = q.
Proof. destruct q as [n d]. unfold Qopp. cbn [Qnum Qden]. rewrite Z.opp_involutive. reflexivity. Qed.

Lemma Qred_Qabs_sign (x : Q) :
  (if (Qnum x <? 0)%Z then - Qred (Qabs x) else Qred (Qabs x)) = Qred x.
Proof.
  destruct x as [n d]. cbn [Qnum]. destruct (n <? 0)%Z eqn:Hn.
  - apply Z.ltb_lt in Hn.
    assert (Qabs (n # d) = - (n # d)) as ->.
    { unfold Qabs, Qopp. cbn [Qnum Qden]. rewrite Z.abs_neq by lia. reflexivity. }
    rewrite Qred_opp. apply Qopp_involutive_eq.
  - apply Z.ltb_ge in Hn. unfold Qabs. rewrite Z.abs_eq by lia. reflexivity.
Qed.

(** A number of the format is rounded to itself. *)
Lemma round_representable (prec emin emax : Z) (x : Q) (M E : Z) :
  x == inject_Z M * 2 ^ E ->
  (Z.abs M < 2 ^ prec)%Z -> (emin <= E)%Z ->
  Qabs x < 2 ^ emax ->
  round prec emin emax x = Fin (Qred x).
Proof.
  intros Hx HM HE Hmax.
  destruct (Z.eq_dec (Qnum x) 0%Z) as [H0|H0].
  - unfold round. rewrite H0. change (Z.abs 0 =? 0)%Z with true. cbv iota.
    f_equal. symmetry. apply (Qred_complete x 0).
    destruct x as [n d]. cbn in H0. subst n. reflexivity.
  - rewrite round_unfold by exact H0. cbv zeta.
    set (a := Z.abs (Qnum x)). set (d := Qden x).
    assert (0 < a)%Z as Ha by (unfold a; lia).
    set (ex := Z.max (floor_log2 a d - prec + 1) emin).
    pose proof (Qabs_num_den x) as Habs. fold a d in Habs.
    assert (Qabs x == inject_Z (Z.abs M) * 2 ^ E) as HxM.
    { rewrite Hx, Qabs_Qmult, (Qabs_pos (2 ^ E)) by (apply Qlt_le_weak, Qpow2_pos).
      reflexivity. }
    assert (0 < Z.abs M)%Z as HM0.
    { destruct (Z.eq_dec M 0%Z) as [->|]; [|lia]. exfalso.
      cbn [Z.abs] in HxM. rewrite HxM in Habs.
      assert (inject_Z a == 0) as Hz.
      { rewrite <- Habs. change (inject_Z (Z.abs 0)) with 0.
        generalize (2 ^ E) (inject_Z (Zpos d)). intros. ring. }
      apply (inject_Z_injective a 0%Z) in Hz. lia. }
    assert (ex <= E)%Z as Hex.
    { unfold ex. apply Z.max_lub; [|exact HE].
      destruct (floor_log2_spec a d Ha) as [Hlo _].
      destruct (Qlog2_spec (Z.abs M) HM0) as [_ Hup].
      assert (Z.log2 (Z.abs M) < prec)%Z as Hlog.
      { apply Z.log2_lt_pow2; assumption. }
      enough (floor_log2 a d < Z.log2 (Z.abs M) + 1 + E)%Z by lia.
      apply (Qpower_lt_compat_l_inv 2); [|reflexivity].
      rewrite (Qpow2_plus (Z.log2 (Z.abs M) + 1) E).
      rewrite <- Habs, HxM in Hlo.
      pose proof (Qpow2_pos E) as HpE.
      assert (0 < inject_Z (Zpos d)) as Hd by reflexivity.
      set (f := 2 ^ floor_log2 a d) in *. set (pE := 2 ^ E) in *.
      set (u := 2 ^ (Z.log2 (Z.abs M) + 1)) in *.
      set (m := inject_Z (Z.abs M)) in *. set (Qd := inject_Z (Zpos d)) in *.
      assert (m * pE < u * pE) by (apply Qmult_lt_r; assumption).
      apply Qnot_le_lt. intros Hge.
      assert (u * pE * Qd <= f * Qd) by (apply Qmult_le_r; assumption).
      assert (m * pE * Qd < u * pE * Qd) by (apply Qmult_lt_r; assumption).
      lra. }
    assert (significand ex a d = (Z.abs M * 2 ^ (E - ex))%Z) as Hsig.
    { apply significand_exact.
      rewrite <- Habs, HxM, inject_Z_mult, <- (Qpow2_Z (E - ex)) by lia.
      assert (2 ^ E == 2 ^ (E - ex) * 2 ^ ex) as ->.
      { rewrite <- Qpow2_plus. replace (E - ex + ex)%Z with E by lia. reflexivity. }
      ring. }
    rewrite Hsig.
    assert (Qred (inject_Z (Z.abs M * 2 ^ (E - ex)) * pow2 ex) = Qred (Qabs x)) as ->.
    { apply Qred_complete.
      rewrite HxM, pow2_Qpower, inject_Z_mult, <- (Qpow2_Z (E - ex)) by lia.
      assert (2 ^ E == 2 ^ (E - ex) * 2 ^ ex) as ->.
      { rewrite <- Qpow2_plus. replace (E - ex + ex)%Z with E by lia. reflexivity. }
      ring. }
    assert (Qle_bool (pow2 emax) (Qred (Qabs x)) = false) as ->.
    { apply not_true_iff_false. rewrite Qle_bool_iff, Qred_correct, pow2_Qpower.
      apply Qlt_not_le, Hmax. }
    f_equal. apply Qred_Qabs_sign.
Qed.

(** A finite result of [round] is a number of the format. *)
Lemma round_Fin_inv (prec emin emax : Z) (x q : Q) :
  (0 < prec)%Z ->
  round prec emin emax x = Fin q ->
  Qred q = q /\ Qabs q < 2 ^ emax /\
  exists M E, q == inject_Z M * 2 ^ E /\ (Z.abs M < 2 ^ prec)%Z /\ (emin <= E)%Z.
Proof.
  intros Hprec H.
  assert (0 < 2 ^ prec)%Z as Hpp by (apply Z.pow_pos_nonneg; lia).
  destruct (Z.eq_dec (Qnum x) 0%Z) as [H0|H0].
  - unfold round in H. rewrite H0 in H. change (Z.abs 0 =? 0)%Z with true in H.
    cbv iota in H. injection H as <-.
    split; [reflexivity|]. split; [apply Qpow2_pos|].
    exists 0%Z, emin. split; [|split; [cbn; lia | lia]].
    change (inject_Z 0) with 0. generalize (2 ^ emin). intros; ring.
  - rewrite round_unfold in H by exact H0. cbv zeta in H.
    set (a := Z.abs (Qnum x)) in *. set (d := Qden x) in *.
    assert (0 < a)%Z as Ha by (unfold a; lia).
    set (ex := Z.max (floor_log2 a d - prec + 1) emin) in *.
    set (m := significand ex a d) in *.
    assert (0 <= m <= 2 ^ prec)%Z as Hm.
    { apply significand_bounds; [lia | lia |].
      destruct (floor_log2_spec a d Ha) as [_ Hup].
      assert (2 ^ (floor_log2 a d + 1) <= 2 ^ (ex + prec)) as Hle
        by (apply Qpow2_le; unfold ex; lia).
      assert (0 < inject_Z (Zpos d)) as Hd by reflexivity.
      assert (2 ^ (floor_log2 a d + 1) * inject_Z (Zpos d)
              <= 2 ^ (ex + prec) * inject_Z (Zpos d))
        by (apply Qmult_le_r; assumption).
      lra. }
    set (magnitude := Qred (inject_Z m * pow2 ex)) in *.
    assert (magnitude == inject_Z m * 2 ^ ex) as Hmag.
    { unfold magnitude. rewrite Qred_correct, pow2_Qpower. reflexivity. }
    assert (0 <= magnitude) as Hnonneg.
    { rewrite Hmag. apply Qmult_le_0_compat; [|apply Qlt_le_weak, Qpow2_pos].
      change 0 with (inject_Z 0). rewrite <- Zle_Qle. lia. }
    destruct (Qle_bool (pow2 emax) magnitude) eqn:Hov; [discriminate|].
    assert (magnitude < 2 ^ emax) as Hlt.
    { apply Qnot_le_lt. intros Hle. rewrite <- pow2_Qpower, <- Qle_bool_iff in Hle.
      congruence. }
    assert (Qred magnitude = magnitude) as Hred
      by (apply Qred_complete, Qred_correct).
    assert (exists M E, magnitude == inject_Z M * 2 ^ E /\
                        (0 <= M < 2 ^ prec)%Z /\ (emin <= E)%Z) as (M & E & HME & HM & HE).
    { destruct (Z.eq_dec m (2 ^ prec)%Z) as [Heq|Hne].
      - exists (2 ^ (prec - 1))%Z, (ex + 1)%Z. split; [|split].
        + rewrite Hmag, Heq, <- !Qpow2_Z, <- !Qpow2_plus by lia.
          replace (prec - 1 + (ex + 1))%Z with (prec + ex)%Z by lia. reflexivity.
        + split; [apply Z.pow_nonneg; lia | apply Z.pow_lt_mono_r; lia].
        + unfold ex. lia.
      - exists m, ex. split; [exact Hmag|]. split; [lia | unfold ex; lia]. }
    injection H as <-. destruct (Qnum x <? 0)%Z.
    + split; [rewrite Qred_opp, Hred; reflexivity|].
      split; [rewrite Qabs_opp, Qabs_pos; assumption|].
      exists (- M)%Z, E. split; [|split; [lia | exact HE]].
      rewrite HME, inject_Z_opp. generalize (2 ^ E) (inject_Z M). intros; ring.
    + split; [exact Hred|].
      split; [rewrite Qabs_pos; assumption|].
      exists M, E. split; [exact HME|]. split; [lia | exact HE].
Qed.

(** Rounding a result of [round] again changes nothing. *)
Lemma round_idempotent (prec emin emax : Z) (x q : Q) :
  (0 < prec)%Z ->
  round prec emin emax x = Fin q -> round prec emin emax q = Fin q.
Proof.
  intros Hprec H. apply round_Fin_inv in H as (Hred & Hmax & M & E & Hq & HM & HE);
    [|exact Hprec].
  rewrite <- Hred at 2. apply (round_representable prec emin emax q M E); assumption.
Qed.

Lemma Qred_inject_Z (n : Z) : Qred (inject_Z n) = inject_Z n.
Proof.
  unfold Qred, inject_Z.
  pose proof (Z.ggcd_gcd n 1) as Hg. pose proof (Z.ggcd_correct_divisors n 1) as Hd.
  destruct (Z.ggcd n 1) as [g [aa bb]]. cbn [fst snd] in *.
  rewrite Z.gcd_1_r in Hg. subst g. destruct Hd as [-> Hb].
  assert (bb = 1%Z) as -> by lia. f_equal. lia.
Qed.

(** An integer below [2^prec] in magnitude is rounded to itself. *)
Lemma round_exact_int (prec emin emax n : Z) :
  (emin <= 0)%Z -> (0 <= prec <= emax)%Z -> (Z.abs n < 2 ^ prec)%Z ->
  round prec emin emax (inject_Z n) = Fin (inject_Z n).
Proof.
  intros Hemin Hprec Hn. rewrite <- (Qred_inject_Z n) at 2.
  apply (round_representable prec emin emax (inject_Z n) n 0); try assumption.
  - change (2 ^ 0) with 1. ring.
  - apply Qlt_le_trans with (2 ^ prec); [|apply Qpow2_le; lia].
    rewrite Qpow2_Z by lia. change (Qabs (inject_Z n)) with (inject_Z (Z.abs n)).
    rewrite <- Zlt_Qlt. exact Hn.
Qed.

Lemma float32_idempotent (x q : Q) : float32 x = Fin q -> float32 q = Fin q.
Proof. apply round_idempotent. reflexivity. Qed.

Lemma float32_exact_int (n : Z) :
  (Z.abs n < 2 ^ 24)%Z -> float32 (inject_Z n) = Fin (inject_Z n).
Proof. intros H. apply round_exact_int; [lia | lia | exact H]. Qed.

Lemma float64_exact_int (n : Z) :
  (Z.abs n < 2 ^ 53)%Z -> float64 (inject_Z n) = Fin (inject_Z n).
Proof. intros H. apply round_exact_int; [lia | lia | exact H]. Qed.

Lemma round_significand_bounds (prec emin a : Z) (d : positive) :
  (0 < prec)%Z -> (0 < a)%Z ->
  (0 <= significand (Z.max (floor_log2 a d - prec + 1) emin) a d <= 2 ^ prec)%Z.
Proof.
  intros Hprec Ha. apply significand_bounds; [lia | lia |].
  destruct (floor_log2_spec a d Ha) as [_ Hup].
  assert (2 ^ (floor_log2 a d + 1)
          <= 2 ^ (Z.max (floor_log2 a d - prec + 1) emin + prec)) as Hle
    by (apply Qpow2_le; lia).
  assert (0 < inject_Z (Zpos d)) as Hd by reflexivity.
  assert (2 ^ (floor_log2 a d + 1) * inject_Z (Zpos d)
          <= 2 ^ (Z.max (floor_log2 a d - prec + 1) emin + prec) * inject_Z (Zpos d))
    by (apply Qmult_le_r; assumption).
  lra.
Qed.

(** A number below [2^k] in magnitude, with [k] below the overflow
    threshold, is rounded to a finite number, of its sign. *)
Lemma round_finite (prec emin emax k : Z) (x : Q) :
  (0 < prec)%Z -> (k < emax)%Z -> (emin + prec < emax)%Z ->
  Qabs x < 2 ^ k ->
  exists q, round prec emin emax x = Fin q /\ (0 <= x -> 0 <= q).
Proof.
  intros Hprec Hk Hemin Hx.
  destruct (Z.eq_dec (Qnum x) 0%Z) as [H0|H0].
  - exists 0. unfold round. rewrite H0. change (Z.abs 0 =? 0)%Z with true.
    split; [reflexivity | intros _; apply Qle_refl].
  - rewrite round_unfold by exact H0. cbv zeta.
    set (a := Z.abs (Qnum x)). set (d := Qden x).
    assert (0 < a)%Z as Ha by (unfold a; lia).
    pose proof (round_significand_bounds prec emin a d Hprec Ha) as Hm.
    set (ex := Z.max (floor_log2 a d - prec + 1) emin) in *.
    set (m := significand ex a d) in *.
    set (magnitude := Qred (inject_Z m * pow2 ex)).
    assert (magnitude == inject_Z m * 2 ^ ex) as Hmag.
    { unfold magnitude. rewrite Qred_correct, pow2_Qpower. reflexivity. }
    assert (0 <= magnitude) as Hnonneg.
    { rewrite Hmag. apply Qmult_le_0_compat; [|apply Qlt_le_weak, Qpow2_pos].
      change 0 with (inject_Z 0). rewrite <- Zle_Qle. lia. }
    assert (floor_log2 a d < k)%Z as He.
    { apply (Qpower_lt_compat_l_inv 2); [|reflexivity].
      destruct (floor_log2_spec a d Ha) as [Hlo _].
      pose proof (Qabs_num_den x) as Habs. fold a d in Habs.
      assert (0 < inject_Z (Zpos d)) as Hd by reflexivity.
      rewrite <- Habs in Hlo.
      set (f := 2 ^ floor_log2 a d) in *. set (u := 2 ^ k) in *.
      set (Qd := inject_Z (Zpos d)) in *.
      apply Qnot_le_lt. intros Hge.
      assert (u * Qd <= f * Qd) by (apply Qmult_le_r; assumption).
      assert (Qabs x * Qd < u * Qd) by (apply Qmult_lt_r; assumption).
      lra. }
    assert (magnitude < 2 ^ emax) as Hlt.
    { apply Qle_lt_trans with (2 ^ (prec + ex)); [|apply Qpow2_lt; unfold ex; lia].
      rewrite Hmag, Qpow2_plus, (Qpow2_Z prec) by lia.
      apply Qmult_le_r; [apply Qpow2_pos|]. rewrite <- Zle_Qle. lia. }
    assert (Qle_bool (pow2 emax) magnitude = false) as ->.
    { apply not_true_iff_false. rewrite Qle_bool_iff, pow2_Qpower.
      apply Qlt_not_le, Hlt. }
    eexists. split; [reflexivity|]. intros Hpos.
    assert ((Qnum x <? 0)%Z = false) as ->; [|exact Hnonneg].
    apply Z.ltb_ge. destruct x as [n dd]. unfold Qle in Hpos. cbn in *. lia.
Qed.

Lemma float32_int64_finite (n : N) :
  (Z.of_N n < 2 ^ 63)%Z ->
  exists W, float32 (inject_Z (Z.of_N n)) = Fin W /\ 0 <= W.
Proof.
  intros H.
  destruct (round_finite 24 (-149) 128 63 (inject_Z (Z.of_N n)))
    as (W & HW & Hpos); try lia.
  - change (Qabs (inject_Z (Z.of_N n))) with (inject_Z (Z.abs (Z.of_N n))).
    rewrite Qpow2_Z by lia. rewrite <- Zlt_Qlt. lia.
  - exists W. split; [exact HW | apply Hpos, inject_N_nonneg].
Qed.

Lemma float64_int64_finite (l : Z) :
  (- 2 ^ 63 <= l < 2 ^ 63)%Z -> exists q, float64 (inject_Z l) = Fin q.
Proof.
  intros H.
  destruct (round_finite 53 (-1074) 1024 64 (inject_Z l)) as (q & Hq & _); try lia.
  - change (Qabs (inject_Z l)) with (inject_Z (Z.abs l)).
    rewrite Qpow2_Z by lia. rewrite <- Zlt_Qlt. lia.
  - exists q. exact Hq.
Qed.

(** ** The tensors *)

Lemma int64_Ok (z z' : Z) :
  int64 z = Ok z' <-> z' = z /\ (- 2 ^ 63 <= z < 2 ^ 63)%Z.
Proof.
  unfold int64.
  destruct (- 2 ^ 63 <=? z)%Z eqn:Hlo, (z <? 2 ^ 63)%Z eqn:Hhi; cbn;
    rewrite ?Z.leb_le, ?Z.leb_gt, ?Z.ltb_lt, ?Z.ltb_ge in *; split;
    try discriminate; try (intros [_ ?]; lia).
  - intros [= <-]. split; [reflexivity | lia].
  - intros [-> _]. reflexivity.
Qed.

Lemma mapM_int64_Ok (l l' : list Z) :
  mapM int64 l = Ok l' <->
  l' = l /\ Forall (fun z => (- 2 ^ 63 <= z < 2 ^ 63)%Z) l.
Proof.
  split.
  - intros H. apply mapM_Ok_inv in H.
    induction H as [|z z' l l' Hz _ [-> IH]]; [split; constructor|].
    apply int64_Ok in Hz as [-> Hz]. split; [reflexivity | constructor; assumption].
  - intros [-> H]. apply mapM_Ok_intro.
    induction H as [|z l Hz _ IH]; constructor; [|exact IH].
    apply int64_Ok. auto.
Qed.

Lemma torch_reshape_rows4_length (flat : list float) (bs : list Torch.Box) :
  Torch.reshape_rows4 flat = Ok bs -> length flat = (4 * length bs)%nat.
Proof.
  revert flat. induction bs as [|b bs IH]; intros flat H.
  - destruct flat as [|a [|b [|c [|d rest]]]]; cbn in H; try discriminate; auto.
    destruct (Torch.reshape_rows4 rest); discriminate.
  - destruct flat as [|a [|b' [|c [|d rest]]]]; cbn in H; try discriminate.
    destruct (Torch.reshape_rows4 rest) as [bs'|] eqn:E; [|discriminate].
    injection H as _ ->. cbn. rewrite (IH rest E). lia.
Qed.

Lemma torch_reshape_rows4_rows (rows : list (list float)) (bs : list Torch.Box) :
  Forall (fun r => length r = 4%nat) rows ->
  Torch.reshape_rows4 (concat rows) = Ok bs ->
  Forall2 (fun r b => r = [Torch.col0 b; Torch.col1 b; Torch.col2 b; Torch.col3 b])
          rows bs.
Proof.
  intros Hrows. revert bs.
  induction Hrows as [|r rows Hr _ IH]; intros bs H.
  - injection H as <-. constructor.
  - destruct r as [|a [|b [|c [|d [|? ?]]]]]; try discriminate Hr.
    cbn in H. destruct (Torch.reshape_rows4 (concat rows)) as [bs'|] eqn:E; [|discriminate].
    injection H as <-. constructor; [reflexivity | apply IH; reflexivity].
Qed.


Lemma torch_as_tensor_float32_Ok (rows : list (list Q)) (t : list (list float)) :
  Torch.as_tensor_float32 rows = Ok t <->
  rectangular rows = true /\ t = map (map float32) rows.
Proof.
  unfold Torch.as_tensor_float32, as_tensor.
  destruct (rectangular rows); cbn; split.
  - intros [= <-]. auto.
  - intros [_ ->]. reflexivity.
  - discriminate.
  - intros [? _]. discriminate.
Qed.

(** When the reshaped tensor has as many rows as there are [bbox] lists,
    every [bbox] has four entries and row [i] is the [bbox] of object [i],
    converted. *)
Lemma torch_reshape_aligned (rows : list (list Q)) (t : list (list float))
    (bs : list Torch.Box) :
  Torch.as_tensor_float32 rows = Ok t ->
  Torch.reshape_m1_4 t = Ok bs ->
  length bs = length rows ->
  Forall2 (fun r b => map float32 r =
                      [Torch.col0 b; Torch.col1 b; Torch.col2 b; Torch.col3 b])
          rows bs.
Proof.
  intros Ht Hbs Hlen. apply torch_as_tensor_float32_Ok in Ht as [Hrect ->].
  unfold Torch.reshape_m1_4 in Hbs.
  destruct rows as [|r rs].
  - injection Hbs as <-. constructor.
  - apply rectangular_rows in Hrect.
    assert (Forall (fun r' => length r' = length r) (map (map float32) (r :: rs)))
      as Hrect'.
    { apply List.Forall_forall. intros r' Hin.
      apply in_map_iff in Hin as (r0 & <- & Hin).
      rewrite length_map. rewrite List.Forall_forall in Hrect. apply Hrect, Hin. }
    pose proof (length_concat_uniform _ _ Hrect') as Hc.
    pose proof (torch_reshape_rows4_length _ _ Hbs) as H4.
    rewrite Hc, length_map, <- Hlen in H4. cbn [length] in Hlen.
    assert (length r = 4%nat) as Hr by nia.
    rewrite Hr in Hrect'.
    pose proof (torch_reshape_rows4_rows _ _ Hrect' Hbs) as Hal.
    apply Forall2_fmap_l in Hal. exact Hal.
Qed.


Lemma torch_view_row3_length (row : list float) (ts : list (float * float * float)) :
  Torch.view_row3 row = Ok ts -> length row = (3 * length ts)%nat.
Proof.
  revert row. induction ts as [|tr ts IH]; intros row H.
  - destruct row as [|a [|b [|c rest]]]; cbn in H; try discriminate; auto.
    destruct (Torch.view_row3 rest); discriminate.
  - destruct row as [|a [|b [|c rest]]]; cbn in H; try discriminate.
    destruct (Torch.view_row3 rest) as [ts'|] eqn:E; [|discriminate].
    injection H as _ ->. cbn. rewrite (IH rest E). lia.
Qed.

Lemma Forall2_left {A B} (R : A -> B -> Prop) (P : A -> Prop) (l : list A) (l' : list B) :
  Forall2 R l l' -> (forall x y, R x y -> P x) -> Forall P l.
Proof. induction 1; intros HP; constructor; eauto. Qed.

Lemma Forall2_chain_left {A B D} (R : A -> B -> Prop) (S : B -> D -> Prop)
    (P : A -> Prop) (l : list A) (l' : list B) (l'' : list D) :
  Forall2 R l l' -> Forall2 S l' l'' ->
  (forall x y z, R x y -> S y z -> P x) -> Forall P l.
Proof.
  intros HR. revert l''. induction HR; intros l'' HS HP; [constructor|].
  inversion HS; subst. constructor; eauto.
Qed.

Lemma Forall2_chain {A B D} (R : A -> B -> Prop) (S : B -> D -> Prop)
    (T : A -> D -> Prop) (l : list A) (l' : list B) (l'' : list D) :
  Forall2 R l l' -> Forall2 S l' l'' ->
  (forall x y z, R x y -> S y z -> T x z) -> Forall2 T l l''.
Proof.
  intros HR. revert l''. induction HR; intros l'' HS HT; inversion HS; subst;
    constructor; eauto.
Qed.

Lemma Forall2_In_l {A B} (R : A -> B -> Prop) (l : list A) (l' : list B) (x : A) :
  Forall2 R l l' -> In x l -> exists y, In y l' /\ R x y.
Proof.
  induction 1 as [|x' y l l' Hxy _ IH]; cbn; [contradiction|].
  intros [<- | Hin]; [exists y; auto|].
  destruct (IH Hin) as (y' & Hy' & HR). exists y'; auto.
Qed.

Section TorchNormalizer.

Context {C : Collaborators}.

Implicit Types (self : ConvertCocoPolysToMask) (image img : Image)
  (target : RawTarget C) (t : @Torch.Target C) (obj : Annotation C)
  (anno : list (Annotation C)).

Lemma torch_row_of_row (w h : N) obj (r : list Q) (b : Torch.Box) :
  obj_bbox obj = Some r ->
  map float32 r = [Torch.col0 b; Torch.col1 b; Torch.col2 b; Torch.col3 b] ->
  Torch.row_of w h obj =
    Some (Torch.clamp_y h (Torch.clamp_x w (Torch.add_corner b))).
Proof.
  intros Hr Hb. unfold Torch.row_of. rewrite Hr.
  destruct r as [|x [|y [|bw [|bh [|? ?]]]]]; try discriminate Hb.
  injection Hb as -> -> -> ->. destruct b; reflexivity.
Qed.

Lemma torch_keep_rows (w h : N) anno (bs : list Torch.Box) :
  Forall2 (fun obj b => Torch.row_of w h obj = Some b) anno bs ->
  map Torch.keep_row bs = map (Torch.survives w h) anno.
Proof.
  induction 1 as [|obj b anno bs Hb _ IH]; cbn; [reflexivity|].
  rewrite IH. unfold Torch.survives. rewrite Hb. reflexivity.
Qed.

Lemma torch_stack_keypoints_Ok anno kps :
  Torch.stack_keypoints anno = Ok kps ->
  match anno with
  | obj0 :: _ =>
      match obj_keypoints obj0 with
      | Some kp0 =>
          (exists K, length kp0 = (3 * K)%nat) /\
          Forall (fun obj => exists kp, obj_keypoints obj = Some kp /\
                                        length kp = length kp0) anno /\
          exists ks, kps = Some ks /\
                     Forall2 (fun obj k =>
                                exists kp, obj_keypoints obj = Some kp /\
                                           Torch.view_row3 (map float32 kp) = Ok k)
                             anno ks
      | None => kps = None
      end
  | [] => kps = None
  end.
Proof.
  unfold Torch.stack_keypoints. destruct anno as [|obj0 rest]; [congruence|].
  destruct (obj_keypoints obj0) as [kp0|] eqn:H0; [|congruence].
  intros H. step H rows Hrows. apply mapM_Ok_inv in Hrows.
  step H t0 Ht0. apply torch_as_tensor_float32_Ok in Ht0 as [Hrect ->].
  inversion Hrows as [|? r0 ? rs0 Hr0 Hrest]; subst.
  apply getitem_key_Ok in Hr0. rewrite H0 in Hr0. injection Hr0 as <-.
  apply rectangular_rows in Hrect.
  cbn [map length Nat.eqb negb] in H. step H ks Hks. subst kps.
  unfold Torch.view_n_m1_3 in Hks. apply mapM_Ok_inv in Hks.
  change (map float32 kp0 :: map (map float32) rs0)
    with (map (map float32) (kp0 :: rs0)) in Hks.
  apply Forall2_fmap_l in Hks.
  split; [|split].
  - inversion Hks as [|? k ? ? Hk _]; subst. cbn in Hk.
    exists (length k). apply torch_view_row3_length in Hk.
    rewrite length_map in Hk. exact Hk.
  - assert (forall (n : nat) (l : list (Annotation C)) (rs : list (list Q)),
               Forall2 (fun obj r => getitem_key "keypoints" (obj_keypoints obj) = Ok r)
                       l rs ->
               Forall (fun r => length r = n) rs ->
               Forall (fun obj => exists kp, obj_keypoints obj = Some kp /\
                                             length kp = n) l) as Haux.
    { intros n l rs HF. induction HF as [|obj r l rs Hr _ IH]; intros Hn;
        [constructor|].
      inversion Hn; subst. constructor; [|apply IH; assumption].
      exists r. split; [apply getitem_key_Ok in Hr; exact Hr | reflexivity]. }
    exact (Haux _ _ _ Hrows Hrect).
  - exists ks. split; [reflexivity|].
    apply (Forall2_chain _ _ _ _ _ _ Hrows Hks).
    intros obj r k Hr Hk. apply getitem_key_Ok in Hr. eauto.
Qed.

(** What a call that returns has computed: every per-object entry is read
    off the records that are not crowds and whose row line 107 keeps. *)
Lemma torch_call_Ok_inv self image target img t :
  Torch.ConvertCocoPolysToMask_call self image target = Ok (img, t) ->
  let w := fst (image_size image) in
  let h := snd (image_size image) in
  let anno := List.filter not_crowd (annotations target) in
  let kept := List.filter (Torch.survives w h) anno in
  img = image /\
  Forall2 (fun obj b => Torch.row_of w h obj = Some b) kept (Torch.boxes t) /\
  Forall2 (fun obj c => obj_category_id obj = Some c) kept (Torch.labels t) /\
  Forall2 (fun obj a => exists v, obj_area obj = Some v /\ a = float32 v)
          kept (Torch.area t) /\
  Torch.iscrowd t = map (fun obj => default 0%Z (obj_iscrowd obj)) kept /\
  match Torch.masks t with
  | Some ms =>
      return_masks self = true /\
      Forall2 (fun obj m => exists seg, obj_segmentation obj = Some seg /\
                                        decode_mask seg h w = Ok m) kept ms
  | None => return_masks self = false
  end /\
  match Torch.keypoints t with
  | Some ks =>
      (exists obj0 rest kp, anno = obj0 :: rest /\ obj_keypoints obj0 = Some kp) /\
      Forall2 (fun obj k => exists kp, obj_keypoints obj = Some kp /\
                                       Torch.view_row3 (map float32 kp) = Ok k)
              kept ks
  | None => match anno with
            | obj0 :: _ => obj_keypoints obj0 = None
            | [] => True
            end
  end /\
  Torch.image_id t = [raw_image_id target] /\
  Torch.orig_size t = [Z.of_N h; Z.of_N w] /\
  Torch.size_ t = [Z.of_N h; Z.of_N w] /\
  Torch.well_formed self image target.
Proof.
  unfold Torch.ConvertCocoPolysToMask_call, Torch.well_formed.
  destruct (image_size image) as [w h]. cbn [fst snd].
  set (anno := List.filter not_crowd (annotations target)).
  intros H.
  step H idl Hids. apply mapM_int64_Ok in Hids as [-> Hids].
  step H rows Hrows. step H t0 Ht0. step H bs Hbs.
  step H classes0 Hcl. step H classes Hcl64. apply mapM_int64_Ok in Hcl64 as [-> Hcl64].
  step H ms Hms. step H kps Hkps.
  step H boxes' Hb. step H labels' Hl. step H ms' Hms'. step H kps' Hkps'.
  step H area0 Harea. step H crowd0 Hcrowd. apply mapM_int64_Ok in Hcrowd as [-> _].
  step H area' Harea'. step H crowd' Hcrowd'.
  step H osz Hosz. apply mapM_int64_Ok in Hosz as [-> Hosz].
  injection H as -> ->.
  cbn [Torch.boxes Torch.labels Torch.masks Torch.image_id Torch.keypoints
       Torch.area Torch.iscrowd Torch.orig_size Torch.size_].
  apply mapM_Ok_inv in Hrows, Hcl, Harea.
  apply index_mask_Ok in Hb as [_ ->], Hl as [Hlen ->],
     Harea' as [_ ->], Hcrowd' as [_ ->].
  rewrite !length_map in Hlen.
  assert (length bs = length rows) as Hlen'.
  { rewrite Hlen, <- (Forall2_length _ _ _ Hcl). apply (Forall2_length _ _ _ Hrows). }
  pose proof (torch_reshape_aligned _ _ _ Ht0 Hbs Hlen') as Hal.
  assert (Forall2 (fun obj b => Torch.row_of w h obj = Some b) anno
            (map (Torch.clamp_y h) (map (Torch.clamp_x w) (map Torch.add_corner bs))))
    as Hspec.
  { rewrite !Forall2_fmap_r.
    apply (Forall2_chain _ _ _ _ _ _ Hrows Hal).
    intros obj r b Hr Hrb. apply getitem_key_Ok in Hr.
    apply (torch_row_of_row _ _ _ _ _ Hr Hrb). }
  rewrite (torch_keep_rows _ _ _ _ Hspec) in *.
  set (p := Torch.survives w h) in *.
  split; [reflexivity|].
  split; [apply select_Forall2; exact Hspec|].
  split.
  { apply select_Forall2. eapply Forall2_impl; [exact Hcl|].
    intros obj c Hc. apply getitem_key_Ok in Hc. exact Hc. }
  split.
  { apply select_Forall2. apply Forall2_fmap_r.
    eapply Forall2_impl; [exact Harea|].
    intros obj a Ha. apply getitem_key_Ok in Ha. cbn. eauto. }
  split; [apply select_map_filter|].
  assert (Forall (fun obj => return_masks self = true ->
                             exists seg m, obj_segmentation obj = Some seg /\
                                           decode_mask seg h w = Ok m) anno /\
          match ms' with
          | Some ms1 =>
              return_masks self = true /\
              Forall2 (fun obj m => exists seg, obj_segmentation obj = Some seg /\
                                                decode_mask seg h w = Ok m)
                      (List.filter p anno) ms1
          | None => return_masks self = false
          end) as [F4 Hmasks].
  { destruct (return_masks self).
    - step Hms segs Hsegs. step Hms ms0 Hms0. subst ms.
      cbn in Hms'. step Hms' ms1 Hms1. subst ms'.
      apply index_mask_Ok in Hms1 as [_ ->].
      apply mapM_Ok_inv in Hsegs. apply convert_coco_poly_to_mask_Ok in Hms0.
      split.
      + apply (Forall2_chain_left _ _ _ _ _ _ Hsegs Hms0).
        intros obj seg m Hs Hm _. apply getitem_key_Ok in Hs. eauto.
      + split; [reflexivity|]. apply select_Forall2.
        apply (Forall2_chain _ _ _ _ _ _ Hsegs Hms0).
        intros obj seg m Hs Hm. apply getitem_key_Ok in Hs. eauto.
    - injection Hms as <-. injection Hms' as <-.
      split; [|reflexivity]. apply List.Forall_forall. intros obj _. discriminate. }
  split; [exact Hmasks|].
  pose proof (torch_stack_keypoints_Ok _ _ Hkps) as Hk.
  split.
  { clear - Hk Hkps'. subst p. clearbody anno.
    destruct anno as [|obj0 rest].
    - subst kps. injection Hkps' as <-. trivial.
    - destruct (obj_keypoints obj0) as [kp0|] eqn:H0.
      + destruct Hk as (_ & _ & ks & -> & Hall).
        unfold index_mask_opt in Hkps'. step Hkps' ks1 Hks1. subst kps'.
        apply index_mask_Ok in Hks1 as [_ ->].
        split; [eauto | apply select_Forall2; exact Hall].
      + subst kps. injection Hkps' as <-. reflexivity. }
  split; [reflexivity|]. split; [reflexivity|]. split; [reflexivity|].
  (* the list was well formed *)
  split; [|split; [|split]].
  - split.
    + assert (Forall (fun obj => exists x y bw bh, obj_bbox obj = Some [x; y; bw; bh])
                     anno) as F1.
      { apply (Forall2_chain_left _ _ _ _ _ _ Hrows Hal).
        intros obj r b Hr Hrb. apply getitem_key_Ok in Hr.
        destruct r as [|x [|y [|bw [|bh [|? ?]]]]]; try discriminate Hrb. eauto. }
      assert (Forall (fun obj => exists c, obj_category_id obj = Some c) anno) as F2.
      { apply (Forall2_left _ _ _ _ Hcl). intros obj c Hc.
        apply getitem_key_Ok in Hc. eauto. }
      assert (Forall (fun obj => exists a, obj_area obj = Some a) anno) as F3.
      { apply (Forall2_left _ _ _ _ Harea). intros obj a Ha.
        apply getitem_key_Ok in Ha. eauto. }
      rewrite List.Forall_forall in F1, F2, F3, F4.
      apply List.Forall_forall. intros obj Hin. auto.
    + clear - Hk. clearbody anno. destruct anno as [|obj0 rest]; [trivial|].
      destruct (obj_keypoints obj0); [|trivial].
      destruct Hk as (HK & Hall & _). auto.
  - inversion Hids; subst. assumption.
  - clear - Hcl Hcl64. induction Hcl as [|obj c l cs Hc _ IH]; [constructor|].
    inversion Hcl64; subst. constructor; [|apply IH; assumption].
    intros c' Hc'. apply getitem_key_Ok in Hc. congruence.
  - inversion Hosz as [|? ? Hh Hrest]; subst.
    inversion Hrest as [|? ? Hw _]; subst. lia.
Qed.

End TorchNormalizer.

Section TorchTotality.

Context {C : Collaborators}.

Implicit Types (self : ConvertCocoPolysToMask) (image img : Image)
  (target : RawTarget C) (t : @Torch.Target C) (obj : Annotation C)
  (anno : list (Annotation C)).





(** X4.  In the returned record, [labels] holds the [category_id] of each
    surviving record in the order of the input, [masks] (when present) the
    decoded [segmentation] of each, and [keypoints] (when present) the
    triples of each, converted to [float32]: the survivors, the non-crowd
    records whose row line 107 keeps, are the same for every array. *)
Theorem X4_labels_masks_keypoints_of_survivors self image target img t :
  Torch.ConvertCocoPolysToMask_call self image target = Ok (img, t) ->
  let w := fst (image_size image) in
  let h := snd (image_size image) in
  let survivors :=
    List.filter (Torch.survives w h) (List.filter not_crowd (annotations target)) in
  Forall2 (fun obj c => obj_category_id obj = Some c) survivors (Torch.labels t) /\
  (forall ms, Torch.masks t = Some ms ->
     Forall2 (fun obj m => exists seg, obj_segmentation obj = Some seg /\
                                       decode_mask seg h w = Ok m) survivors ms) /\
  (forall ks, Torch.keypoints t = Some ks ->
     Forall2 (fun obj k => exists kp, obj_keypoints obj = Some kp /\
                                      Torch.view_row3 (map float32 kp) = Ok k)
             survivors ks).
Proof.
  intros H. apply torch_call_Ok_inv in H.
  destruct H as (_ & _ & Hl & _ & _ & Hm & Hk & _).
  split; [exact Hl|]. split.
  - intros ms Hms. rewrite Hms in Hm. apply Hm.
  - intros ks Hks. rewrite Hks in Hk. apply Hk.
Qed.

End TorchTotality.

(** ** [__getitem__] with the number formats of the tensors *)

Lemma torch_columns_0_4_Ok (rows : list (list Q)) (t : list (list float)) :
  Torch.columns_0_4 rows = Ok t ->
  rows <> [] /\ t = map (take 4) (map (map float32) rows).
Proof.
  unfold Torch.columns_0_4. intros H. step H t2 Ht2.
  apply torch_as_tensor_float32_Ok in Ht2 as [_ ->].
  destruct rows as [|r rs]; [discriminate|].
  cbn [map] in H. injection H as <-. split; [discriminate | reflexivity].
Qed.

Section TorchGetitem.

Context {C : Collaborators}.

Implicit Types (self : CocoDetection C) (t prepared : @Torch.Target C).

(** What a call of [__getitem__] that returns has computed. *)
Lemma torch_getitem_Ok_inv self (idx : Z) (img : Image + ImageTensor) t :
  Torch.CocoDetection_getitem self idx = Ok (img, t) ->
  exists image anns img_id prepared,
    super_getitem self idx = Ok (image, anns) /\
    list_getitem (ids self) idx = Ok img_id /\
    Torch.ConvertCocoPolysToMask_call (prepare self) image (mkRawTarget img_id anns)
      = Ok (image, prepared) /\
    match _transforms self with
    | Some transforms =>
        exists stacked bboxes res_image rows corners new_labels,
          Torch.hstack (Torch.boxes prepared) (Torch.labels prepared) = Ok stacked /\
          Torch.finite_rows stacked = Ok bboxes /\
          call_transforms transforms image bboxes = Ok (res_image, rows) /\
          rows <> [] /\
          Torch.unbind4 (map (take 4) (map (map float32) rows)) = Ok corners /\
          Torch.column_4 rows = Ok new_labels /\
          img = inr (tensor_float res_image) /\
          t = Torch.assign_boxes_labels prepared
                (map Torch.div_640 (map Torch.box_xyxy_to_cxcywh corners)) new_labels
    | None => img = inl image /\ t = prepared
    end.
Proof.
  unfold Torch.CocoDetection_getitem. intros H.
  step H fetched Hfetch. destruct fetched as [image anns].
  step H img_id Hid. step H normalized Hprep. destruct normalized as [image' prepared].
  pose proof Hprep as Hinv. apply torch_call_Ok_inv in Hinv as [-> _].
  exists image, anns, img_id, prepared.
  split; [first [reflexivity | exact Hfetch]|].
  split; [first [reflexivity | exact Hid]|].
  split; [first [reflexivity | exact Hprep]|].
  destruct (_transforms self) as [transforms|].
  - step H stacked Hstack. step H bboxes Hfin. step H res Hres.
    destruct res as [res_image rows]. cbn [fst snd] in H.
    step H new_boxes Hcols. step H new_labels Hlabels. step H corners Hunbind.
    injection H as -> ->.
    apply torch_columns_0_4_Ok in Hcols as [Hne ->].
    exists stacked, bboxes, res_image, rows, corners, new_labels.
    split; [first [reflexivity | assumption]|].
    split; [first [reflexivity | assumption]|].
    split; [first [reflexivity | assumption]|].
    split; [assumption|].
    split; [first [reflexivity | assumption]|].
    split; [first [reflexivity | assumption]|].
    split; reflexivity.
  - injection H as <- <-. split; reflexivity.
Qed.

(** C3, as the code has it.  A call of [__getitem__] that returns has
    fetched the image and its annotations and normalized them.  When the
    dataset holds a transformation pipeline, each returned box is computed
    from the first four columns (x1, y1, x2, y2) of one row of the
    pipeline's output, converted to [float32]: the center
    ((x1 + x2) / 2, (y1 + y2) / 2) and the extent (x2 - x1, y2 - y1), each
    divided by 640, every operation rounded to [float32].  When the dataset
    holds no pipeline, the normalized record is returned as it is, its
    boxes in corner format and in pixels. *)
Theorem C3_boxes_reencoded_in_float32_when_pipeline_given
    self (idx : Z) (img : Image + ImageTensor) t :
  Torch.CocoDetection_getitem self idx = Ok (img, t) ->
  exists image anns img_id prepared,
    super_getitem self idx = Ok (image, anns) /\
    list_getitem (ids self) idx = Ok img_id /\
    Torch.ConvertCocoPolysToMask_call (prepare self) image (mkRawTarget img_id anns)
      = Ok (image, prepared) /\
    match _transforms self with
    | Some transforms =>
        exists bboxes res_image rows,
          (Torch.hstack (Torch.boxes prepared) (Torch.labels prepared)
             ≫= Torch.finite_rows) = Ok bboxes /\
          call_transforms transforms image bboxes = Ok (res_image, rows) /\
          Forall2
            (fun row b =>
               exists x1 y1 x2 y2,
                 take 4 row = [x1; y1; x2; y2] /\
                 b = Torch.mkBox
                       (fdiv float32
                          (fdiv float32 (fadd float32 (float32 x1) (float32 x2)) 2) 640)
                       (fdiv float32
                          (fdiv float32 (fadd float32 (float32 y1) (float32 y2)) 2) 640)
                       (fdiv float32 (fsub float32 (float32 x2) (float32 x1)) 640)
                       (fdiv float32 (fsub float32 (float32 y2) (float32 y1)) 640))
            rows (Torch.boxes t) /\
          img = inr (tensor_float res_image)
    | None => img = inl image /\ t = prepared
    end.
Proof.
  intros H. apply torch_getitem_Ok_inv in H.
  destruct H as (image & anns & img_id & prepared & Hfetch & Hid & Hprep & H).
  exists image, anns, img_id, prepared.
  split; [exact Hfetch|]. split; [exact Hid|]. split; [exact Hprep|].
  destruct (_transforms self) as [transforms|]; [|exact H].
  destruct H as (stacked & bboxes & res_image & rows & corners & new_labels &
                 Hstack & Hfin & Hres & _ & Hunbind & _ & -> & ->).
  exists bboxes, res_image, rows.
  split; [rewrite Hstack; exact Hfin|]. split; [exact Hres|]. split; [|reflexivity].
  cbn [Torch.assign_boxes_labels Torch.boxes].
  unfold Torch.unbind4 in Hunbind. apply mapM_Ok_inv in Hunbind.
  clear - Hunbind. revert corners Hunbind.
  induction rows as [|row rows IH]; intros corners Hunbind; cbn [map] in Hunbind.
  - inversion Hunbind; subst. constructor.
  - inversion Hunbind as [|? b ? corners' Hrow Hrest]; subst. cbn [map].
    constructor; [|apply IH; exact Hrest].
    rewrite firstn_map in Hrow.
    destruct (take 4 row) as [|x1 [|y1 [|x2 [|y2 [|? ?]]]]]; try discriminate Hrow.
    cbn [map] in Hrow. injection Hrow as <-.
    exists x1, y1, x2, y2. split; reflexivity.
Qed.

End TorchGetitem.

(** ** The round trip of the stacked rows *)

Lemma to_int64_inject_Z (z : Z) : to_int64 (inject_Z z) = z.
Proof.
  unfold to_int64. destruct (Qle_bool 0 (inject_Z z)); [apply Qfloor_Z | apply Qceiling_Z].
Qed.

Lemma float_to_int64_Ok (q : Q) :
  - inject_Z (2 ^ 63) <= q -> q < inject_Z (2 ^ 63) ->
  float_to_int64 q = Ok (to_int64 q).
Proof.
  intros Hlo Hhi. unfold float_to_int64.
  assert (- 2 ^ 63 <= to_int64 q < 2 ^ 63)%Z as [H1 H2].
  { unfold to_int64. destruct (Qle_bool 0 q) eqn:Hq.
    - apply Qle_bool_iff in Hq.
      pose proof (Qfloor_resp_le _ _ Hq) as H0. change (Qfloor 0) with 0%Z in H0.
      pose proof (Qfloor_le q) as Hf.
      split; [lia|]. rewrite Zlt_Qlt. lra.
    - assert (q <= 0) as Hq'.
      { apply Qlt_le_weak, Qnot_le_lt. intros H. apply Qle_bool_iff in H. congruence. }
      pose proof (Qceiling_resp_le _ _ Hq') as H0. change (Qceiling 0) with 0%Z in H0.
      pose proof (Qle_ceiling q) as Hc.
      split; [|lia]. rewrite Zle_Qle, inject_Z_opp. lra. }
  apply Z.leb_le in H1. apply Z.ltb_lt in H2. rewrite H1, H2. reflexivity.
Qed.

(** The rows [hstack] builds have five columns, from which the boxes and
    the labels are read back. *)
Lemma torch_hstack_rows (tmp_boxes : list Torch.Box) (tmp_labels : list Z) :
  length tmp_boxes = length tmp_labels ->
  Forall Torch.box_in_int64 tmp_boxes ->
  Forall (fun l => (Z.abs l < 2 ^ 53)%Z) tmp_labels ->
  exists stacked rows irows,
    Torch.hstack tmp_boxes tmp_labels = Ok stacked /\
    Torch.finite_rows stacked = Ok rows /\
    length rows = length tmp_boxes /\
    Forall (fun row => length row = 5%nat) rows /\
    Torch.unbind4 (map (take 4) (map (map float32) rows)) = Ok tmp_boxes /\
    mapM (mapM float_to_int64) rows = Ok irows /\
    Forall2 (fun row l => nth_error row 4 = Some l) irows tmp_labels.
Proof.
  revert tmp_labels.
  induction tmp_boxes as [|b bs IH]; intros [|l ls] Hlen Hb Hl; try discriminate.
  - exists [], [], []. repeat split; constructor.
  - injection Hlen as Hlen.
    inversion Hb as [|? ? Hb0 Hbs]; subst. inversion Hl as [|? ? Hl0 Hls]; subst.
    destruct (IH ls Hlen Hbs Hls) as (stacked & rows & irows & Hh & Hf & Hn & H5 & Hu & Hi & Hc).
    destruct b as [c0 c1 c2 c3].
    unfold Torch.box_in_int64, Torch.float32_in_int64 in Hb0.
    cbn [Torch.col0 Torch.col1 Torch.col2 Torch.col3] in Hb0.
    destruct Hb0 as ((x1 & -> & Hx1 & Hx1lo & Hx1hi) & (y1 & -> & Hy1 & Hy1lo & Hy1hi) &
                     (x2 & -> & Hx2 & Hx2lo & Hx2hi) & (y2 & -> & Hy2 & Hy2lo & Hy2hi)).
    cbn [Torch.col0 Torch.col1 Torch.col2 Torch.col3] in *.
    exists ([Fin x1; Fin y1; Fin x2; Fin y2; Fin (inject_Z l)] :: stacked),
           ([x1; y1; x2; y2; inject_Z l] :: rows),
           ([to_int64 x1; to_int64 y1; to_int64 x2; to_int64 y2; l] :: irows).
    split; [cbn [Torch.hstack]; rewrite Hh, (float64_exact_int l Hl0); reflexivity|].
    split.
    { unfold Torch.finite_rows in *. apply mapM_Ok_intro.
      constructor; [reflexivity | apply mapM_Ok_inv, Hf]. }
    split; [cbn [length]; rewrite Hn; reflexivity|].
    split; [constructor; [reflexivity | exact H5]|].
    split.
    { unfold Torch.unbind4 in *. apply mapM_Ok_intro. cbn [map].
      constructor; [|apply mapM_Ok_inv, Hu].
      cbn [take firstn map]. rewrite Hx1, Hy1, Hx2, Hy2. reflexivity. }
    split.
    { apply mapM_Ok_intro. constructor; [|apply mapM_Ok_inv, Hi].
      apply mapM_Ok_intro.
      repeat (constructor; [apply float_to_int64_Ok; assumption|]).
      constructor; [|constructor].
      rewrite <- (to_int64_inject_Z l) at 2. apply float_to_int64_Ok.
      - rewrite <- inject_Z_opp, <- Zle_Qle. lia.
      - rewrite <- Zlt_Qlt. lia. }
    constructor; [reflexivity | exact Hc].
Qed.

Lemma torch_columns_0_4_uniform (k : nat) (rows : list (list Q)) :
  rows <> [] -> Forall (fun row => length row = k) rows ->
  Torch.columns_0_4 rows = Ok (map (take 4) (map (map float32) rows)).
Proof.
  intros Hne Hk. unfold Torch.columns_0_4.
  assert (Torch.as_tensor_float32 rows = Ok (map (map float32) rows)) as ->.
  { apply torch_as_tensor_float32_Ok. split; [|reflexivity].
    apply (rectangular_uniform _ _ Hk). }
  cbn [mbind Result_bind]. destruct rows as [|r rs]; [contradiction | reflexivity].
Qed.

Lemma torch_column_4_Ok (rows : list (list Q)) (irows : list (list Z)) (ls : list Z) :
  rows <> [] ->
  Forall (fun row => length row = 5%nat) rows ->
  mapM (mapM float_to_int64) rows = Ok irows ->
  Forall2 (fun row l => nth_error row 4 = Some l) irows ls ->
  Torch.column_4 rows = Ok ls.
Proof.
  intros Hne H5 Hi Hc. unfold Torch.column_4, as_tensor.
  rewrite (rectangular_uniform _ _ H5). cbn [mbind Result_bind]. rewrite Hi.
  cbn [mbind Result_bind].
  destruct irows as [|r rs].
  - apply mapM_Ok_inv in Hi. inversion Hi; subst. contradiction.
  - apply mapM_Ok_intro. eapply Forall2_impl; [exact Hc|].
    intros row l Hrow. cbn beta. rewrite Hrow. reflexivity.
Qed.

(** X10.  Stacking the labels as a fifth column beside the boxes (a
    [float64] array) and then splitting the rows (columns 0 to 3 converted
    to [float32] as boxes, column 4 of the rows converted to [int64] as
    labels) gives back the boxes and the labels, whenever there is at least
    one box, the coordinates are finite [float32] values in the range of
    [int64], and the labels are below [2^53] in magnitude. *)
Theorem X10_hstack_then_split_round_trip_in_float64
    (tmp_boxes : list Torch.Box) (tmp_labels : list Z) :
  tmp_boxes <> [] ->
  length tmp_boxes = length tmp_labels ->
  Forall Torch.box_in_int64 tmp_boxes ->
  Forall (fun l => (Z.abs l < 2 ^ 53)%Z) tmp_labels ->
  exists rows,
    (Torch.hstack tmp_boxes tmp_labels ≫= Torch.finite_rows) = Ok rows /\
    (Torch.columns_0_4 rows ≫= Torch.unbind4) = Ok tmp_boxes /\
    Torch.column_4 rows = Ok tmp_labels.
Proof.
  intros Hne Hlen Hb Hl.
  destruct (torch_hstack_rows _ _ Hlen Hb Hl)
    as (stacked & rows & irows & Hh & Hf & Hn & H5 & Hu & Hi & Hc).
  exists rows. split; [rewrite Hh; exact Hf|].
  assert (rows <> []) as Hrows.
  { intros ->. destruct tmp_boxes; [contradiction | discriminate]. }
  split; [|apply (torch_column_4_Ok _ irows); assumption].
  rewrite (torch_columns_0_4_uniform _ _ Hrows H5). exact Hu.
Qed.

(** ** The clamp on [float32] values *)

Lemma Qgtb_false (a b : Q) : Qgtb a b = false <-> a <= b.
Proof. unfold Qgtb. rewrite negb_false_iff. apply Qle_bool_iff. Qed.

Lemma flt_not_NaN (a b : float) : flt a b = true -> a <> NaN /\ b <> NaN.
Proof. destruct a, b; cbn; intros H; split; congruence. Qed.

Lemma torch_clamp_NaN (min max f : float) :
  Torch.clamp min max f <> NaN -> f <> NaN.
Proof. intros H ->. apply H. reflexivity. Qed.

Lemma torch_clamp_inside (W x : Q) :
  0 <= x -> x <= W -> Torch.clamp (Fin 0) (Fin W) (Fin x) = Fin x.
Proof.
  intros H0 HW. unfold Torch.clamp, fmax, fmin. cbn [flt].
  apply Qgtb_false in H0. rewrite H0. cbn [flt].
  apply Qgtb_false in HW. rewrite HW. reflexivity.
Qed.

(** A clamped [float32] is a finite [float32] between the bounds. *)
Lemma torch_clamp_float32 (W : Q) (f : float) :
  0 <= W -> float32 W = Fin W ->
  (forall q, f = Fin q -> float32 q = Fin q) ->
  f <> NaN ->
  exists q, Torch.clamp (Fin 0) (Fin W) f = Fin q /\ float32 q = Fin q /\
            0 <= q /\ q <= W.
Proof.
  intros HW HfW Hf Hnan. unfold Torch.clamp, fmax, fmin.
  assert (Qgtb 0 W = false) as HW' by (apply Qgtb_false; exact HW).
  destruct f as [|s|x]; [contradiction| |].
  - destruct s; cbn [flt negb].
    + rewrite HW'. exists 0.
      split; [reflexivity|]. split; [reflexivity|]. split; [lra | exact HW].
    + exists W.
      split; [reflexivity|]. split; [exact HfW|]. split; [exact HW | lra].
  - cbn [flt]. destruct (Qgtb 0 x) eqn:H0; cbn [flt].
    + rewrite HW'. exists 0.
      split; [reflexivity|]. split; [reflexivity|]. split; [lra | exact HW].
    + apply Qgtb_false in H0. destruct (Qgtb x W) eqn:H1.
      * exists W.
        split; [reflexivity|]. split; [exact HfW|]. split; [exact HW | lra].
      * apply Qgtb_false in H1. exists x.
        split; [reflexivity|]. split; [apply Hf; reflexivity|].
        split; [exact H0 | exact H1].
Qed.

Lemma fadd_float32_value (a b : float) (q : Q) :
  fadd float32 a b = Fin q -> float32 q = Fin q.
Proof.
  destruct a as [|s|x], b as [|s'|y]; cbn; try discriminate.
  - destruct (Bool.eqb s s'); discriminate.
  - apply float32_idempotent.
Qed.

Lemma float32_image_side (n : N) :
  (Z.of_N n < 2 ^ 24)%Z ->
  float32 (inject_Z (Z.of_N n)) = Fin (inject_Z (Z.of_N n)).
Proof. intros H. apply float32_exact_int. lia. Qed.

Section TorchBoxes.

Context {C : Collaborators}.

Implicit Types (self : ConvertCocoPolysToMask) (image img : Image)
  (target : RawTarget C) (t : @Torch.Target C) (obj : Annotation C).

(** The row of a record that line 107 keeps. *)
Lemma torch_kept_row (w h : N) (W H : Q) obj (b : Torch.Box) :
  float32 (inject_Z (Z.of_N w)) = Fin W -> 0 <= W ->
  float32 (inject_Z (Z.of_N h)) = Fin H -> 0 <= H ->
  Torch.row_of w h obj = Some b -> Torch.keep_row b = true ->
  exists x1 y1 x2 y2,
    b = Torch.mkBox (Fin x1) (Fin y1) (Fin x2) (Fin y2) /\
    (float32 x1 = Fin x1 /\ float32 y1 = Fin y1 /\
     float32 x2 = Fin x2 /\ float32 y2 = Fin y2) /\
    (0 <= x1 /\ x1 < x2 /\ x2 <= W) /\
    (0 <= y1 /\ y1 < y2 /\ y2 <= H).
Proof.
  intros HW HW0 HH HH0 Hrow Hkeep. unfold Torch.row_of in Hrow.
  destruct (obj_bbox obj) as [[|x [|y [|bw [|bh [|? ?]]]]]|]; try discriminate.
  injection Hrow as <-.
  unfold Torch.keep_row, Torch.clamp_y, Torch.clamp_x, Torch.add_corner in *.
  cbn [Torch.col0 Torch.col1 Torch.col2 Torch.col3] in *.
  rewrite HW, HH in *.
  apply andb_true_iff in Hkeep as [Hy Hx].
  destruct (flt_not_NaN _ _ Hy) as [Hn1 Hn3]. destruct (flt_not_NaN _ _ Hx) as [Hn0 Hn2].
  apply torch_clamp_NaN in Hn0, Hn1, Hn2, Hn3.
  pose proof (float32_idempotent _ _ HW) as HW'.
  pose proof (float32_idempotent _ _ HH) as HH'.
  destruct (torch_clamp_float32 W (float32 x) HW0 HW')
    as (x1 & E0 & F0 & L0 & U0); [intros q; apply float32_idempotent | exact Hn0 |].
  destruct (torch_clamp_float32 H (float32 y) HH0 HH')
    as (y1 & E1 & F1 & L1 & U1); [intros q; apply float32_idempotent | exact Hn1 |].
  destruct (torch_clamp_float32 W (fadd float32 (float32 bw) (float32 x)) HW0 HW')
    as (x2 & E2 & F2 & L2 & U2); [intros q; apply fadd_float32_value | exact Hn2 |].
  destruct (torch_clamp_float32 H (fadd float32 (float32 bh) (float32 y)) HH0 HH')
    as (y2 & E3 & F3 & L3 & U3); [intros q; apply fadd_float32_value | exact Hn3 |].
  rewrite E0, E2 in Hx. rewrite E1, E3 in Hy. cbn [flt] in Hx, Hy.
  apply Qgtb_true in Hx, Hy.
  exists x1, y1, x2, y2. rewrite E0, E1, E2, E3.
  split; [reflexivity|]. split; [auto|]. split; auto.
Qed.

(** X17.  With the number formats of the tensors, every returned box has
    finite [float32] corners with [0 <= x1 < x2 <= W] and
    [0 <= y1 < y2 <= H], where [W] and [H] are the sides of the image
    converted to [float32]: no NaN and no infinity is returned. *)
Theorem X17_returned_boxes_finite_and_clamped self image target img t (b : Torch.Box) :
  Torch.ConvertCocoPolysToMask_call self image target = Ok (img, t) ->
  In b (Torch.boxes t) ->
  exists W H x1 y1 x2 y2,
    float32 (inject_Z (Z.of_N (fst (image_size image)))) = Fin W /\
    float32 (inject_Z (Z.of_N (snd (image_size image)))) = Fin H /\
    b = Torch.mkBox (Fin x1) (Fin y1) (Fin x2) (Fin y2) /\
    (float32 x1 = Fin x1 /\ float32 y1 = Fin y1 /\
     float32 x2 = Fin x2 /\ float32 y2 = Fin y2) /\
    (0 <= x1 /\ x1 < x2 /\ x2 <= W) /\
    (0 <= y1 /\ y1 < y2 /\ y2 <= H).
Proof.
  intros H Hin. apply torch_call_Ok_inv in H.
  destruct H as (_ & Hb & _ & _ & _ & _ & _ & _ & _ & _ & _ & _ & _ & Hw & Hh).
  destruct (float32_int64_finite _ Hw) as (W & HW & HW0).
  destruct (float32_int64_finite _ Hh) as (H & HH & HH0).
  destruct (Forall2_In_r _ _ _ _ Hb Hin) as (obj & Hobj & Hrow).
  apply filter_In in Hobj as [_ Hs].
  unfold Torch.survives in Hs. rewrite Hrow in Hs.
  destruct (torch_kept_row _ _ W H obj b HW HW0 HH HH0 Hrow Hs)
    as (x1 & y1 & x2 & y2 & Hbox).
  exists W, H, x1, y1, x2, y2. split; [exact HW|]. split; [exact HH|]. exact Hbox.
Qed.

Lemma torch_boxes_in_int64 self image target img t :
  Torch.ConvertCocoPolysToMask_call self image target = Ok (img, t) ->
  (Z.of_N (fst (image_size image)) < 2 ^ 24)%Z ->
  (Z.of_N (snd (image_size image)) < 2 ^ 24)%Z ->
  Forall Torch.box_in_int64 (Torch.boxes t).
Proof.
  intros H Hw Hh. apply torch_call_Ok_inv in H. destruct H as (_ & Hb & _).
  apply List.Forall_forall. intros b Hin.
  destruct (Forall2_In_r _ _ _ _ Hb Hin) as (obj & Hobj & Hrow).
  apply filter_In in Hobj as [_ Hs].
  unfold Torch.survives in Hs. rewrite Hrow in Hs.
  destruct (torch_kept_row _ _ _ _ obj b
              (float32_image_side _ Hw) (inject_N_nonneg _)
              (float32_image_side _ Hh) (inject_N_nonneg _) Hrow Hs)
    as (x1 & y1 & x2 & y2 & -> & (F0 & F1 & F2 & F3) & (Lx & Mx & Ux) & (Ly & My & Uy)).
  assert (inject_Z (Z.of_N (fst (image_size image))) < inject_Z (2 ^ 63)) as HW
    by (rewrite <- Zlt_Qlt; lia).
  assert (inject_Z (Z.of_N (snd (image_size image))) < inject_Z (2 ^ 63)) as HH
    by (rewrite <- Zlt_Qlt; lia).
  assert (- inject_Z (2 ^ 63) <= 0) as Hneg by (unfold Qle; cbn; lia).
  unfold Torch.box_in_int64, Torch.float32_in_int64.
  cbn [Torch.col0 Torch.col1 Torch.col2 Torch.col3].
  split; [exists x1; split; [reflexivity|]; split; [assumption|]; split; lra|].
  split; [exists y1; split; [reflexivity|]; split; [assumption|]; split; lra|].
  split; [exists x2; split; [reflexivity|]; split; [assumption|]; split; lra|].
  exists y2; split; [reflexivity|]; split; [assumption|]; split; lra.
Qed.

Lemma torch_hstack_finite (tmp_boxes : list Torch.Box) (tmp_labels : list Z) :
  length tmp_boxes = length tmp_labels ->
  Forall (fun b => exists x1 y1 x2 y2,
                     b = Torch.mkBox (Fin x1) (Fin y1) (Fin x2) (Fin y2)) tmp_boxes ->
  Forall (fun l => (- 2 ^ 63 <= l < 2 ^ 63)%Z) tmp_labels ->
  exists stacked rows,
    Torch.hstack tmp_boxes tmp_labels = Ok stacked /\
    Torch.finite_rows stacked = Ok rows /\
    length rows = length tmp_boxes /\
    Forall (fun row => length row = 5%nat) rows.
Proof.
  revert tmp_labels.
  induction tmp_boxes as [|b bs IH]; intros [|l ls] Hlen Hb Hl; try discriminate.
  - exists [], []. repeat split; constructor.
  - injection Hlen as Hlen.
    inversion Hb as [|? ? (x1 & y1 & x2 & y2 & ->) Hbs]; subst.
    inversion Hl as [|? ? Hl0 Hls]; subst.
    destruct (IH ls Hlen Hbs Hls) as (stacked & rows & Hh & Hf & Hn & H5).
    destruct (float64_int64_finite l Hl0) as (q & Hq).
    exists ([Fin x1; Fin y1; Fin x2; Fin y2; Fin q] :: stacked),
           ([x1; y1; x2; y2; q] :: rows).
    split; [cbn [Torch.hstack Torch.col0 Torch.col1 Torch.col2 Torch.col3];
            rewrite Hh, Hq; reflexivity|].
    split.
    { unfold Torch.finite_rows in *. apply mapM_Ok_intro.
      constructor; [reflexivity | apply mapM_Ok_inv, Hf]. }
    split; [cbn [length]; rewrite Hn; reflexivity|].
    constructor; [reflexivity | exact H5].
Qed.

(** X20.  When [ConvertCocoPolysToMask] returns, the array that
    [__getitem__] hands to the pipeline is built without an exception: one
    row of five finite numbers for every returned box. *)
Theorem X20_rows_handed_to_pipeline self image target img t :
  Torch.ConvertCocoPolysToMask_call self image target = Ok (img, t) ->
  exists bboxes,
    (Torch.hstack (Torch.boxes t) (Torch.labels t) ≫= Torch.finite_rows) = Ok bboxes /\
    length bboxes = length (Torch.boxes t) /\
    Forall (fun row => length row = 5%nat) bboxes.
Proof.
  intros H. pose proof H as Hinv. apply torch_call_Ok_inv in Hinv.
  destruct Hinv as (_ & Hb & Hl & _ & _ & _ & _ & _ & _ & _ & _ & _ & Hcat & Hw & Hh).
  destruct (float32_int64_finite _ Hw) as (W & HW & HW0).
  destruct (float32_int64_finite _ Hh) as (H' & HH & HH0).
  destruct (torch_hstack_finite (Torch.boxes t) (Torch.labels t))
    as (stacked & rows & Hs & Hf & Hn & H5).
  - apply Forall2_length in Hb, Hl. congruence.
  - apply List.Forall_forall. intros b Hin.
    destruct (Forall2_In_r _ _ _ _ Hb Hin) as (obj & Hobj & Hrow).
    apply filter_In in Hobj as [_ Hsv].
    unfold Torch.survives in Hsv. rewrite Hrow in Hsv.
    destruct (torch_kept_row _ _ W H' obj b HW HW0 HH HH0 Hrow Hsv)
      as (x1 & y1 & x2 & y2 & -> & _).
    eauto.
  - apply List.Forall_forall. intros l Hin.
    destruct (Forall2_In_r _ _ _ _ Hl Hin) as (obj & Hobj & Hc).
    apply filter_In in Hobj as [Hobj _].
    rewrite List.Forall_forall in Hcat. apply (Hcat obj Hobj l Hc).
  - exists rows. rewrite Hs. split; [exact Hf|]. split; assumption.
Qed.

(** X6.  A retained record whose corners in [float32], x1 = float32(x),
    y1 = float32(y), x2 = float32(width) + x1 and y2 = float32(height) + y1
    (the sums rounded to [float32]), satisfy [0 <= x1 < x2 <= w] and
    [0 <= y1 < y2 <= h] is returned with exactly these corners: the clamp
    changes nothing and line 107 keeps the row. *)
Theorem X6_box_inside_image_unchanged_in_float32
    self image target img t obj (x y bw bh x1 y1 x2 y2 : Q) :
  Torch.ConvertCocoPolysToMask_call self image target = Ok (img, t) ->
  In obj (annotations target) ->
  not_crowd obj = true ->
  obj_bbox obj = Some [x; y; bw; bh] ->
  (Z.of_N (fst (image_size image)) < 2 ^ 24)%Z ->
  (Z.of_N (snd (image_size image)) < 2 ^ 24)%Z ->
  float32 x = Fin x1 -> float32 y = Fin y1 ->
  fadd float32 (float32 bw) (float32 x) = Fin x2 ->
  fadd float32 (float32 bh) (float32 y) = Fin y2 ->
  0 <= x1 -> x1 < x2 -> x2 <= inject_Z (Z.of_N (fst (image_size image))) ->
  0 <= y1 -> y1 < y2 -> y2 <= inject_Z (Z.of_N (snd (image_size image))) ->
  In (Torch.mkBox (Fin x1) (Fin y1) (Fin x2) (Fin y2)) (Torch.boxes t).
Proof.
  intros H Hin Hkeep Hbox Hw Hh Hx1 Hy1 Hx2 Hy2 Lx Mx Ux Ly My Uy.
  apply torch_call_Ok_inv in H. destruct H as (_ & Hb & _).
  assert (Torch.row_of (fst (image_size image)) (snd (image_size image)) obj =
          Some (Torch.mkBox (Fin x1) (Fin y1) (Fin x2) (Fin y2))) as Hrow.
  { unfold Torch.row_of. rewrite Hbox.
    unfold Torch.clamp_y, Torch.clamp_x, Torch.add_corner.
    cbn [Torch.col0 Torch.col1 Torch.col2 Torch.col3].
    rewrite (float32_image_side _ Hw), (float32_image_side _ Hh).
    rewrite Hx2, Hy2, Hx1, Hy1.
    rewrite !torch_clamp_inside by lra. reflexivity. }
  assert (In obj (List.filter (Torch.survives (fst (image_size image))
                                              (snd (image_size image)))
                    (List.filter not_crowd (annotations target)))) as Hsurv.
  { apply filter_In. split; [apply filter_In; auto|].
    unfold Torch.survives. rewrite Hrow. unfold Torch.keep_row.
    cbn [Torch.col0 Torch.col1 Torch.col2 Torch.col3 flt].
    apply andb_true_iff. split; apply Qgtb_true; assumption. }
  destruct (Forall2_In_l _ _ _ _ Hb Hsurv) as (b & Hbin & Hbrow).
  rewrite Hrow in Hbrow. injection Hbrow as <-. exact Hbin.
Qed.

End TorchBoxes.

Section TorchGetitemMore.

Context {C : Collaborators}.

Implicit Types (self : CocoDetection C) (t prepared : @Torch.Target C).

(** X11.  When the pipeline hands back the box rows it was given, on an
    image whose sides are below [2^24] pixels and with category ids below
    [2^53], [__getitem__] returns the transformed image, the labels of the
    normalized record unchanged, and its boxes re-encoded in [float32]. *)
Theorem X11_getitem_with_row_preserving_pipeline_in_float32
    self (idx : Z) (image : Image) (anns : list (Annotation C)) (img_id : Z)
    prepared (transforms : Transform) (res_image : ImageTensor) :
  super_getitem self idx = Ok (image, anns) ->
  list_getitem (ids self) idx = Ok img_id ->
  Torch.ConvertCocoPolysToMask_call (prepare self) image (mkRawTarget img_id anns)
    = Ok (image, prepared) ->
  _transforms self = Some transforms ->
  Torch.boxes prepared <> [] ->
  (Z.of_N (fst (image_size image)) < 2 ^ 24)%Z ->
  (Z.of_N (snd (image_size image)) < 2 ^ 24)%Z ->
  Forall (fun l => (Z.abs l < 2 ^ 53)%Z) (Torch.labels prepared) ->
  (forall bboxes,
     (Torch.hstack (Torch.boxes prepared) (Torch.labels prepared)
        ≫= Torch.finite_rows) = Ok bboxes ->
     call_transforms transforms image bboxes = Ok (res_image, bboxes)) ->
  Torch.CocoDetection_getitem self idx =
    Ok (inr (tensor_float res_image),
        Torch.assign_boxes_labels prepared
          (map Torch.div_640 (map Torch.box_xyxy_to_cxcywh (Torch.boxes prepared)))
          (Torch.labels prepared)).
Proof.
  intros Hfetch Hid Hprep Htr Hne Hw Hh Hl Hpipe. unfold Torch.CocoDetection_getitem.
  rewrite Hfetch. cbn [mbind Result_bind]. rewrite Hid. cbn [mbind Result_bind].
  rewrite Hprep. cbn [mbind Result_bind]. rewrite Htr.
  assert (length (Torch.boxes prepared) = length (Torch.labels prepared)) as Hlen.
  { pose proof Hprep as Hinv. apply torch_call_Ok_inv in Hinv.
    destruct Hinv as (_ & Hb & Hc & _).
    apply Forall2_length in Hb, Hc. congruence. }
  pose proof (torch_boxes_in_int64 _ _ _ _ _ Hprep Hw Hh) as Hb.
  destruct (torch_hstack_rows _ _ Hlen Hb Hl)
    as (stacked & rows & irows & Hh' & Hf & Hn & H5 & Hu & Hi & Hc).
  assert (rows <> []) as Hrows.
  { intros ->. destruct (Torch.boxes prepared); [contradiction | discriminate]. }
  rewrite Hh' in Hpipe |- *. cbn [mbind Result_bind] in Hpipe |- *.
  rewrite Hf. cbn [mbind Result_bind].
  rewrite (Hpipe rows Hf). cbn [mbind Result_bind fst snd].
  rewrite (torch_columns_0_4_uniform _ _ Hrows H5). cbn [mbind Result_bind].
  rewrite (torch_column_4_Ok rows irows _ Hrows H5 Hi Hc). cbn [mbind Result_bind].
  rewrite Hu. reflexivity.
Qed.

End TorchGetitemMore.

(** ** Inputs the number formats refuse or lose *)

Lemma flt_irrefl (a : float) : flt a a = false.
Proof.
  destruct a as [|s|x]; cbn; [reflexivity | destruct s; reflexivity |].
  apply Qgtb_false, Qle_refl.
Qed.

Section TorchEdges.

Context {C : Collaborators}.

Implicit Types (self : ConvertCocoPolysToMask) (image img : Image)
  (target : RawTarget C) (t : @Torch.Target C) (obj : Annotation C).

(** X18.  An [image_id] outside the range of [int64] makes
    [ConvertCocoPolysToMask] raise [RuntimeError] at line 79, before any
    annotation record is read. *)
Theorem X18_image_id_outside_int64_raises self image target :
  ~ (- 2 ^ 63 <= raw_image_id target < 2 ^ 63)%Z ->
  Torch.ConvertCocoPolysToMask_call self image target =
    Raise (RuntimeError "Overflow when unpacking long").
Proof.
  intros H. unfold Torch.ConvertCocoPolysToMask_call.
  destruct (image_size image) as [w h].
  assert (int64 (raw_image_id target) = Raise (RuntimeError "Overflow when unpacking long"))
    as Hid.
  { unfold int64.
    destruct ((- 2 ^ 63 <=? raw_image_id target) && (raw_image_id target <? 2 ^ 63))%Z
      eqn:E; [|reflexivity].
    apply andb_true_iff in E as [E1 E2]. apply Z.leb_le in E1. apply Z.ltb_lt in E2.
    exfalso. apply H. split; assumption. }
  cbn [mapM]. rewrite Hid. reflexivity.
Qed.

(** X19.  A record whose width is lost when it is added to [x] in
    [float32] (the sum rounds back to [float32(x)]) gives a box of no
    width, which line 107 drops: when this holds of every retained record,
    no box is returned, although the widths are positive. *)
Theorem X19_width_lost_in_float32 self image target img t :
  Torch.ConvertCocoPolysToMask_call self image target = Ok (img, t) ->
  Forall (fun obj =>
            not_crowd obj = true ->
            exists x y bw bh,
              obj_bbox obj = Some [x; y; bw; bh] /\
              fadd float32 (float32 bw) (float32 x) = float32 x)
         (annotations target) ->
  Torch.boxes t = [].
Proof.
  intros H Hall. apply torch_call_Ok_inv in H. destruct H as (_ & Hb & _).
  assert (List.filter (Torch.survives (fst (image_size image)) (snd (image_size image)))
            (List.filter not_crowd (annotations target)) = []) as Hnone.
  { clear Hb. induction (annotations target) as [|obj anno IH]; [reflexivity|].
    inversion Hall as [|? ? Hobj Hrest]; subst. cbn [List.filter].
    destruct (not_crowd obj) eqn:Hnc; [|apply IH; exact Hrest].
    cbn [List.filter].
    destruct (Hobj eq_refl) as (x & y & bw & bh & Hbox & Hsum).
    assert (Torch.survives (fst (image_size image)) (snd (image_size image)) obj = false)
      as ->; [|apply IH; exact Hrest].
    unfold Torch.survives, Torch.row_of. rewrite Hbox.
    unfold Torch.keep_row, Torch.clamp_y, Torch.clamp_x, Torch.add_corner.
    cbn [Torch.col0 Torch.col1 Torch.col2 Torch.col3].
    rewrite Hsum, flt_irrefl. apply andb_false_r. }
  rewrite Hnone in Hb. inversion Hb. reflexivity.
Qed.

End TorchEdges.

(** * The theorems on sample data *)

Import Sample.

#[local] Existing Instance libs.
#[local] Existing Instance torchvision.

(** C1 on a person, an object outside the image and a crowd, with masks:
    one object survives, in every array. *)
Lemma C1_witness_person_outside_crowd :
  exists t,
    ConvertCocoPolysToMask_call with_masks image_800x600
      (mkRawTarget 7 [ann_person; ann_outside; ann_crowd]) = Ok (image_800x600, t) /\
    masks t = Some [tt] /\
    keypoints t = Some [[(12, 25, 2); (30, 50, 1)]] /\
    length (boxes t) = length (labels t) /\
    length (labels t) = length (area t) /\
    length (area t) = length (iscrowd t) /\
    (forall ms, masks t = Some ms -> length ms = length (boxes t)) /\
    (forall ks, keypoints t = Some ks -> length ks = length (boxes t)).
Proof.
  eexists. split; [vm_compute; reflexivity|].
  split; [reflexivity|]. split; [reflexivity|].
  apply (C1_per_object_arrays_have_one_length with_masks image_800x600
           (mkRawTarget 7 [ann_person; ann_outside; ann_crowd]) image_800x600).
  vm_compute; reflexivity.
Defined.






(** C7 on the mode ['test']. *)
Lemma C7_witness_test_mode :
  make_coco_transforms "test" = Raise (ValueError "unknown test").
Proof.
  apply (C7_make_coco_transforms_modes "test"); discriminate.
Defined.

(** The claim C10 as stated fails when the dataset root is missing: for the
    mode ['test'], [build] stops at the assertion, not at the lookup. *)
Lemma C10_counterexample_missing_root :
  "test" <> "train" /\ "test" <> "val" /\
  path_exists (Path_of "/nowhere") = false /\
  build "test" (mkArgs "/nowhere" false) =
    ([], Raise (AssertionError "provided COCO path /nowhere does not exist")) /\
  snd (build "test" (mkArgs "/nowhere" false)) <> Raise (KeyError "test").
Proof.
  repeat split; discriminate.
Qed.

(** C10 on the mode ['test'] under an existing root. *)
Lemma C10_witness_test_mode :
  build "test" (mkArgs "/data/coco" false) = ([], Raise (KeyError "test")).
Proof.
  destruct (C10_unknown_image_set_never_reaches_factory (mkArgs "/data/coco" false))
    as [Hunknown _].
  destruct (Hunknown "test") as (Hcalls & Hkey & _); [discriminate | discriminate|].
  rewrite (surjective_pairing (build "test" (mkArgs "/data/coco" false))).
  rewrite Hcalls, (Hkey eq_refl). reflexivity.
Defined.

(** ** The further properties on sample data *)



(** X5 on a record without [iscrowd], one with [iscrowd=0] and a crowd. *)
Lemma X5_witness_flags :
  exists t,
    ConvertCocoPolysToMask_call with_masks image_800x600
      (mkRawTarget 7 [ann_plain; ann_person; ann_crowd]) = Ok (image_800x600, t) /\
    iscrowd t = [0%Z; 0%Z] /\
    Forall (fun c => c = 0%Z) (iscrowd t).
Proof.
  eexists. split; [vm_compute; reflexivity|]. split; [reflexivity|].
  apply (X5_iscrowd_all_zero with_masks image_800x600
           (mkRawTarget 7 [ann_plain; ann_person; ann_crowd]) image_800x600).
  vm_compute; reflexivity.
Defined.


(** X9 on three segmentations of which the second does not decode. *)
Lemma X9_witness_second_fails :
  @convert_coco_poly_to_mask libs_decoding [true; false; true] 600 800 =
    Raise (ValueError "segmentation does not decode").
Proof.
  apply (@X9_convert_coco_poly_to_mask_first_failure libs_decoding [true] [true] false).
  - constructor; [exists tt; reflexivity | constructor].
  - reflexivity.
Defined.

(** X13 on an image without annotations: the pipeline is handed no row and
    returns none. *)
Lemma X13_witness_image_without_annotations :
  CocoDetection_getitem dataset_empty_image 0 =
    Raise (IndexError "too many indices for tensor of dimension 1").
Proof.
  eapply (X13_getitem_empty_pipeline_output_raises dataset_empty_image 0
            image_800x600 [] 7 _ trans_val [] image_800x600).
  - reflexivity.
  - reflexivity.
  - vm_compute; reflexivity.
  - reflexivity.
  - reflexivity.
  - reflexivity.
Defined.

(** X14 on the sample dataset. *)
Lemma X14_witness_sample_dataset :
  exists img t,
    CocoDetection_getitem dataset_train 0 = Ok (img, t) /\
    labels t = [3%Z] /\
    boxes t <> [] /\ length (labels t) = length (boxes t) /\
    exists tensor, img = inr tensor.
Proof.
  eexists _, _. split; [vm_compute; reflexivity|]. split; [reflexivity|].
  apply (X14_getitem_with_pipeline_returns_boxes dataset_train 0).
  - vm_compute; reflexivity.
  - discriminate.
Defined.

(** X15 on [build('train', args)] under the existing root: the dataset is
    the sample dataset with the training pipeline. *)
Lemma X15_witness_build_train :
  build "train" (mkArgs "/data/coco" false) =
    ([call_make_coco_transforms "train";
      call_CocoDetection "/data/coco/train2017"
        "/data/coco/annotations/instances_train2017.json"],
     Ok dataset_train) /\
  path_exists (Path_of "/data/coco") = true /\
  ("train" = "train" \/ "train" = "val") /\
  (exists pipeline, make_coco_transforms "train" = Ok pipeline /\
                    _transforms dataset_train = Some pipeline) /\
  return_masks (prepare dataset_train) = false /\
  super_init "/data/coco/train2017" "/data/coco/annotations/instances_train2017.json"
    = Ok (ids dataset_train, super_getitem dataset_train).
Proof.
  assert (build "train" (mkArgs "/data/coco" false) =
            ([call_make_coco_transforms "train";
              call_CocoDetection "/data/coco/train2017"
                "/data/coco/annotations/instances_train2017.json"],
             Ok dataset_train)) as Hbuild by (vm_compute; reflexivity).
  split; [exact Hbuild|].
  destruct (X15_build_returns "train" (mkArgs "/data/coco" false) _ _ Hbuild)
    as (Hroot & Hmode & _ & Hpipe & Hmasks & Hinit).
  repeat split; assumption.
Defined.

(** X16 on the dataset of [build('train', args)] and its first item. *)
Lemma X16_witness_build_then_getitem :
  exists img t,
    build "train" (mkArgs "/data/coco" false) =
      ([call_make_coco_transforms "train";
        call_CocoDetection "/data/coco/train2017"
          "/data/coco/annotations/instances_train2017.json"],
       Ok dataset_train) /\
    CocoDetection_getitem dataset_train 0 = Ok (img, t) /\
    (exists tensor, img = inr tensor) /\
    boxes t <> [] /\ length (labels t) = length (boxes t).
Proof.
  eexists _, _. split; [vm_compute; reflexivity|].
  split; [vm_compute; reflexivity|].
  eapply (X16_built_dataset_getitem "train" (mkArgs "/data/coco" false) _ dataset_train 0).
  - vm_compute; reflexivity.
  - vm_compute; reflexivity.
Defined.

(** X12 on the sample dataset: the pipeline has run, and [size] is still
    the 600 by 800 of the image as loaded. *)
Lemma X12_witness_sample_dataset :
  exists img t,
    CocoDetection_getitem dataset_train 0 = Ok (img, t) /\
    size_ t = [600%Z; 800%Z] /\
    exists image anns img_id prepared,
      super_getitem dataset_train 0 = Ok (image, anns) /\
      list_getitem (ids dataset_train) 0 = Ok img_id /\
      ConvertCocoPolysToMask_call (prepare dataset_train) image (mkRawTarget img_id anns)
        = Ok (image, prepared) /\
      masks t = masks prepared /\
      keypoints t = keypoints prepared /\
      area t = area prepared /\
      iscrowd t = iscrowd prepared /\
      image_id t = [img_id] /\
      orig_size t = [Z.of_N (snd (image_size image)); Z.of_N (fst (image_size image))] /\
      size_ t = [Z.of_N (snd (image_size image)); Z.of_N (fst (image_size image))].
Proof.
  eexists _, _. split; [vm_compute; reflexivity|]. split; [reflexivity|].
  eapply (X12_getitem_keeps_other_entries dataset_train 0).
  vm_compute; reflexivity.
Defined.

(** ** The properties of the values on sample data *)



(** C3 on a dataset with the training pipeline: the corner box
    (100, 50, 102, 200) comes back as the center (101, 125) and the extent
    (2, 150), each divided by 640 in [float32]; 2 / 640 is not a [float32]
    and comes back as 13421773 / 2^32. *)
Lemma C3_witness_dataset_with_pipeline :
  exists img t,
    Torch.CocoDetection_getitem dataset_thin_train 0 = Ok (img, t) /\
    Torch.boxes t = [Torch.mkBox (Fin (5295309 # 33554432)) (Fin (25 # 128))
                                 (Fin (13421773 # 4294967296)) (Fin (15 # 64))] /\
    exists image anns img_id prepared,
      super_getitem dataset_thin_train 0 = Ok (image, anns) /\
      list_getitem (ids dataset_thin_train) 0 = Ok img_id /\
      Torch.ConvertCocoPolysToMask_call (prepare dataset_thin_train) image
        (mkRawTarget img_id anns) = Ok (image, prepared) /\
      exists bboxes res_image rows,
        (Torch.hstack (Torch.boxes prepared) (Torch.labels prepared)
           ≫= Torch.finite_rows) = Ok bboxes /\
        call_transforms trans_train image bboxes = Ok (res_image, rows) /\
        Forall2
          (fun row b =>
             exists x1 y1 x2 y2,
               take 4 row = [x1; y1; x2; y2] /\
               b = Torch.mkBox
                     (fdiv float32
                        (fdiv float32 (fadd float32 (float32 x1) (float32 x2)) 2) 640)
                     (fdiv float32
                        (fdiv float32 (fadd float32 (float32 y1) (float32 y2)) 2) 640)
                     (fdiv float32 (fsub float32 (float32 x2) (float32 x1)) 640)
                     (fdiv float32 (fsub float32 (float32 y2) (float32 y1)) 640))
          rows (Torch.boxes t) /\
        img = inr (tensor_float res_image).
Proof.
  eexists _, _. split; [vm_compute; reflexivity|].
  split; [reflexivity|].
  apply (C3_boxes_reencoded_in_float32_when_pipeline_given dataset_thin_train 0).
  vm_compute; reflexivity.
Defined.

(** The claim C3 as stated fails on a dataset without a pipeline: the call
    returns, and the box is still the corner box (100, 50, 102, 200) in
    pixels, not its center-size form divided by 640. *)
Lemma C3_counterexample_dataset_without_pipeline :
  exists t,
    Torch.CocoDetection_getitem dataset_thin_no_transforms 0 = Ok (inl image_800x600, t) /\
    Torch.boxes t = [Torch.mkBox (Fin 100) (Fin 50) (Fin 102) (Fin 200)] /\
    Torch.boxes t <>
      map (fun b => Torch.div_640 (Torch.box_xyxy_to_cxcywh b))
          [Torch.mkBox (Fin 100) (Fin 50) (Fin 102) (Fin 200)].
Proof.
  eexists. split; [vm_compute; reflexivity|].
  split; [reflexivity|]. vm_compute. discriminate.
Qed.

(** X4 on a person, an object outside the image and a crowd, with masks:
    the person alone survives, with its label, mask and keypoints. *)
Lemma X4_witness_person_outside_crowd :
  exists t,
    Torch.ConvertCocoPolysToMask_call with_masks image_800x600
      (mkRawTarget 7 [ann_person; ann_outside; ann_crowd]) = Ok (image_800x600, t) /\
    Torch.labels t = [1%Z] /\
    let w := fst (image_size image_800x600) in
    let h := snd (image_size image_800x600) in
    let survivors :=
      List.filter (Torch.survives w h)
        (List.filter not_crowd [ann_person; ann_outside; ann_crowd]) in
    Forall2 (fun obj c => obj_category_id obj = Some c) survivors (Torch.labels t) /\
    (forall ms, Torch.masks t = Some ms ->
       Forall2 (fun obj m => exists seg, obj_segmentation obj = Some seg /\
                                         decode_mask seg h w = Ok m) survivors ms) /\
    (forall ks, Torch.keypoints t = Some ks ->
       Forall2 (fun obj k => exists kp, obj_keypoints obj = Some kp /\
                                        Torch.view_row3 (map float32 kp) = Ok k)
               survivors ks).
Proof.
  eexists. split; [vm_compute; reflexivity|]. split; [reflexivity|].
  apply (X4_labels_masks_keypoints_of_survivors with_masks image_800x600
           (mkRawTarget 7 [ann_person; ann_outside; ann_crowd]) image_800x600).
  vm_compute; reflexivity.
Defined.

(** X6 on a box inside the image: (300, 100, 80, 60) comes back as
    (300, 100, 380, 160). *)
Lemma X6_witness_box_inside :
  exists t,
    Torch.ConvertCocoPolysToMask_call with_masks image_800x600
      (mkRawTarget 7 [ann_plain; ann_outside]) = Ok (image_800x600, t) /\
    Torch.boxes t = [Torch.mkBox (Fin 300) (Fin 100) (Fin 380) (Fin 160)] /\
    In (Torch.mkBox (Fin 300) (Fin 100) (Fin 380) (Fin 160)) (Torch.boxes t).
Proof.
  eexists. split; [vm_compute; reflexivity|]. split; [reflexivity|].
  apply (X6_box_inside_image_unchanged_in_float32 with_masks image_800x600
           (mkRawTarget 7 [ann_plain; ann_outside]) image_800x600 _ ann_plain
           300 100 80 60 300 100 380 160).
  - vm_compute; reflexivity.
  - left; reflexivity.
  - reflexivity.
  - reflexivity.
  - reflexivity.
  - reflexivity.
  - vm_compute; reflexivity.
  - vm_compute; reflexivity.
  - vm_compute; reflexivity.
  - vm_compute; reflexivity.
  - discriminate.
  - reflexivity.
  - discriminate.
  - discriminate.
  - reflexivity.
  - discriminate.
Defined.

(** X10 on two boxes with the labels 7 and 3. *)
Lemma X10_witness_two_boxes :
  exists rows,
    (Torch.hstack [Torch.mkBox (Fin 1) (Fin 2) (Fin 3) (Fin 4);
                   Torch.mkBox (Fin 5) (Fin 6) (Fin 7) (Fin 8)] [7%Z; 3%Z]
       ≫= Torch.finite_rows) = Ok rows /\
    rows = [[1; 2; 3; 4; 7]; [5; 6; 7; 8; 3]] /\
    (Torch.columns_0_4 rows ≫= Torch.unbind4) =
      Ok [Torch.mkBox (Fin 1) (Fin 2) (Fin 3) (Fin 4);
          Torch.mkBox (Fin 5) (Fin 6) (Fin 7) (Fin 8)] /\
    Torch.column_4 rows = Ok [7%Z; 3%Z].
Proof.
  destruct (X10_hstack_then_split_round_trip_in_float64
              [Torch.mkBox (Fin 1) (Fin 2) (Fin 3) (Fin 4);
               Torch.mkBox (Fin 5) (Fin 6) (Fin 7) (Fin 8)] [7%Z; 3%Z])
    as (rows & Hh & Hb & Hc).
  - discriminate.
  - reflexivity.
  - constructor; [|constructor; [|constructor]];
      (split; [|split; [|split]]);
      (eexists; split; [reflexivity|]; split; [vm_compute; reflexivity|];
       split; [vm_compute; discriminate | vm_compute; reflexivity]).
  - constructor; [vm_compute; reflexivity|].
    constructor; [vm_compute; reflexivity | constructor].
  - exists rows. split; [exact Hh|]. split; [|split; assumption].
    vm_compute in Hh. injection Hh as <-. reflexivity.
Defined.

(** X11 on the dataset of the thin box, whose pipeline returns its rows
    unchanged. *)
Lemma X11_witness_thin_dataset :
  exists prepared,
    Torch.ConvertCocoPolysToMask_call no_masks image_800x600 (mkRawTarget 42 [ann_thin])
      = Ok (image_800x600, prepared) /\
    Torch.CocoDetection_getitem dataset_thin_train 0 =
      Ok (inr (tensor_float image_800x600),
          Torch.assign_boxes_labels prepared
            (map Torch.div_640 (map Torch.box_xyxy_to_cxcywh (Torch.boxes prepared)))
            (Torch.labels prepared)).
Proof.
  eexists. split; [vm_compute; reflexivity|].
  apply (X11_getitem_with_row_preserving_pipeline_in_float32 dataset_thin_train 0
           image_800x600 [ann_thin] 42 _ trans_train image_800x600).
  - reflexivity.
  - reflexivity.
  - vm_compute; reflexivity.
  - reflexivity.
  - discriminate.
  - reflexivity.
  - reflexivity.
  - constructor; [vm_compute; reflexivity | constructor].
  - intros bboxes _. reflexivity.
Defined.

(** X17 on the box that reaches past the right border. *)
Lemma X17_witness_border_box :
  exists t,
    Torch.ConvertCocoPolysToMask_call no_masks image_800x600
      (mkRawTarget 7 [ann_border]) = Ok (image_800x600, t) /\
    Torch.boxes t = [Torch.mkBox (Fin 795) (Fin 0) (Fin 800) (Fin 50)] /\
    exists W H x1 y1 x2 y2,
      float32 (inject_Z (Z.of_N (fst (image_size image_800x600)))) = Fin W /\
      float32 (inject_Z (Z.of_N (snd (image_size image_800x600)))) = Fin H /\
      Torch.mkBox (Fin 795) (Fin 0) (Fin 800) (Fin 50)
        = Torch.mkBox (Fin x1) (Fin y1) (Fin x2) (Fin y2) /\
      (float32 x1 = Fin x1 /\ float32 y1 = Fin y1 /\
       float32 x2 = Fin x2 /\ float32 y2 = Fin y2) /\
      (0 <= x1 /\ x1 < x2 /\ x2 <= W) /\
      (0 <= y1 /\ y1 < y2 /\ y2 <= H).
Proof.
  eexists. split; [vm_compute; reflexivity|]. split; [reflexivity|].
  eapply (X17_returned_boxes_finite_and_clamped no_masks image_800x600
            (mkRawTarget 7 [ann_border]) image_800x600 _
            (Torch.mkBox (Fin 795) (Fin 0) (Fin 800) (Fin 50))).
  - vm_compute; reflexivity.
  - left; reflexivity.
Defined.

(** X20 on a person, an object outside the image and a crowd: one row. *)
Lemma X20_witness_person_outside_crowd :
  exists t,
    Torch.ConvertCocoPolysToMask_call with_masks image_800x600
      (mkRawTarget 7 [ann_person; ann_outside; ann_crowd]) = Ok (image_800x600, t) /\
    exists bboxes,
      (Torch.hstack (Torch.boxes t) (Torch.labels t) ≫= Torch.finite_rows) = Ok bboxes /\
      length bboxes = length (Torch.boxes t) /\
      Forall (fun row => length row = 5%nat) bboxes.
Proof.
  eexists. split; [vm_compute; reflexivity|].
  eapply (X20_rows_handed_to_pipeline with_masks image_800x600
            (mkRawTarget 7 [ann_person; ann_outside; ann_crowd]) image_800x600).
  vm_compute; reflexivity.
Defined.

(** X18 on the image id 2^63. *)
Lemma X18_witness_image_id_2_63 :
  Torch.ConvertCocoPolysToMask_call no_masks image_800x600
    (mkRawTarget (2 ^ 63) [ann_plain]) =
  Raise (RuntimeError "Overflow when unpacking long").
Proof.
  apply (X18_image_id_outside_int64_raises no_masks image_800x600
           (mkRawTarget (2 ^ 63) [ann_plain])).
  intros [_ H]. vm_compute in H. discriminate H.
Defined.

(** X19 on the record of width 2^-20 at x = 100: the call returns, and no
    box is left. *)
Lemma X19_witness_hairline :
  exists t,
    Torch.ConvertCocoPolysToMask_call no_masks image_800x600
      (mkRawTarget 7 [ann_hairline; ann_crowd]) = Ok (image_800x600, t) /\
    Torch.boxes t = [].
Proof.
  eexists. split; [vm_compute; reflexivity|].
  eapply (X19_width_lost_in_float32 no_masks image_800x600
            (mkRawTarget 7 [ann_hairline; ann_crowd]) image_800x600).
  - vm_compute; reflexivity.
  - constructor; [|constructor; [|constructor]].
    + intros _. exists 100, 50, (1 # 1048576), 10. split; [reflexivity|].
      vm_compute; reflexivity.
    + intros H. vm_compute in H. discriminate H.
Defined.
